(** * automation_logger: a shallow embedding of the run recorder

    The Python package wraps one run of a scheduled job in a context manager
    ([AutomationRunLogger]) and writes one row describing the run to a
    warehouse table.  This file embeds the five source modules

      - [_json.py]    ([jsonable])
      - [_config.py]  ([load_automation_config])
      - [_host.py]    ([get_host_context])
      - [_paths.py]   ([resolve_entry_script_path], [resolve_path])
      - [logger.py]   ([AutomationRunLogger] and its methods)

    as Rocq functions and proves the properties the specification states
    about them.

    Conventions.
      - A Python [str] is a Rocq [string]; each [ascii] is one code point
        below 256 (the Latin-1 range), not a byte of an encoding.
      - A Python object is a [pyval]; a [dict] is an association list in
        insertion order, as CPython keeps it.  Values are trees: a list or
        dict held in two places is held as two equal values, so a change
        made through one name that Python would show through another (the
        same object stored twice) is outside the model.
      - A [float] is a binary64 number, a [spec_float] with precision 53 and
        maximal exponent 1024.
      - Code that can raise returns a [result].  An exception carries the
        name of its class, whether the class derives from [Exception] (the
        handlers of the package are all [except Exception]), and what [str]
        does on it.
      - What the package asks of the operating system, the interpreter and
        the network is a field of [World] or of [Runtime], and each call
        that can raise there is a [result] or an optional exception; the
        clock readings and the Persistence Sink are arguments of the calls
        that use them. *)

From Stdlib Require Import String Ascii ZArith List Lia Bool.
From Stdlib Require Import DecimalString.
From Stdlib Require Import Floats.SpecFloat.
Import ListNotations.

Local Open Scope string_scope.
Local Open Scope Z_scope.

Set Warnings "-register-all".

(** ** Python strings *)

Module PyStr.

Definition code (c : ascii) : N := N_of_ascii c.

(** [str.isspace] on one code point below 256: TAB..CR, FS..US, SPACE,
    NEL and NBSP. *)
Definition is_space (c : ascii) : bool :=
  let n := code c in
  ((9 <=? n) && (n <=? 13) || (28 <=? n) && (n <=? 32)
   || (n =? 133) || (n =? 160))%N.

(** [str.lower] on one code point below 256. *)
Definition lower_char (c : ascii) : ascii :=
  let n := code c in
  if ((65 <=? n) && (n <=? 90)
      || (192 <=? n) && (n <=? 222) && negb (n =? 215))%N
  then ascii_of_N (n + 32) else c.

(** The decimal digits, the only code points [int] reads below 256. *)
Definition is_decimal (c : ascii) : bool :=
  let n := code c in ((48 <=? n) && (n <=? 57))%N.

(** [str.isdigit] on one code point: the decimal digits and the
    superscripts two, three and one. *)
Definition is_digit_char (c : ascii) : bool :=
  let n := code c in
  (is_decimal c || (n =? 178) || (n =? 179) || (n =? 185))%N.

Fixpoint forall_chars (p : ascii -> bool) (s : string) : bool :=
  match s with
  | EmptyString => true
  | String c r => p c && forall_chars p r
  end.

(** [s.isdigit()]: non-empty and every character a digit. *)
Definition isdigit (s : string) : bool :=
  match s with
  | EmptyString => false
  | _ => forall_chars is_digit_char s
  end.

Fixpoint lower (s : string) : string :=
  match s with
  | EmptyString => EmptyString
  | String c r => String (lower_char c) (lower r)
  end.

Fixpoint lstrip (s : string) : string :=
  match s with
  | EmptyString => EmptyString
  | String c r => if is_space c then lstrip r else s
  end.

Fixpoint rstrip (s : string) : string :=
  match s with
  | EmptyString => EmptyString
  | String c r =>
      match rstrip r with
      | EmptyString => if is_space c then EmptyString else String c EmptyString
      | r' => String c r'
      end
  end.

(** [s.strip()] with no argument. *)
Definition strip (s : string) : string := rstrip (lstrip s).

Definition all_space (s : string) : bool := forall_chars is_space s.

Fixpoint last_char (s : string) : option ascii :=
  match s with
  | EmptyString => None
  | String c EmptyString => Some c
  | String _ r => last_char r
  end.

Definition first_char (s : string) : option ascii :=
  match s with
  | EmptyString => None
  | String c _ => Some c
  end.

(** No leading and no trailing whitespace. *)
Definition trimmed (s : string) : bool :=
  match first_char s, last_char s with
  | Some a, Some b => negb (is_space a) && negb (is_space b)
  | _, _ => true
  end.

Definition nonempty (s : string) : bool :=
  match s with EmptyString => false | _ => true end.

(** The value [int] reads from a string of decimal digits. *)
Fixpoint decimal_value (acc : Z) (s : string) : Z :=
  match s with
  | EmptyString => acc
  | String c r => decimal_value (10 * acc + Z.of_N (code c - 48)) r
  end.

(** The decimal digits a string starts with. *)
Fixpoint decimal_prefix (s : string) : string :=
  match s with
  | EmptyString => EmptyString
  | String c r =>
      if is_decimal c then String c (decimal_prefix r) else EmptyString
  end.

(** [needle in s]. *)
Fixpoint contains (needle s : string) : bool :=
  if String.prefix needle s then true
  else match s with
       | EmptyString => false
       | String _ r => contains needle r
       end.

(** [s.replace(a, b)] for one-character [a] and [b]. *)
Fixpoint replace_char (a b : ascii) (s : string) : string :=
  match s with
  | EmptyString => EmptyString
  | String c r =>
      String (if Ascii.eqb c a then b else c) (replace_char a b r)
  end.

End PyStr.

(** A count as [%d] prints it. *)
Definition decimal (n : N) : string := NilZero.string_of_uint (N.to_uint n).

(** ** Python values *)

(** A [datetime]: the rendering [isoformat] gives of its date and time
    fields, and, when [tzinfo] is set, the rendering of its UTC offset. *)
Record datetime := mk_datetime {
  dt_fields : string;
  dt_tzinfo : option string
}.

Definition utc_offset : string := "+00:00".

Definition replace_tzinfo_utc (d : datetime) : datetime :=
  mk_datetime (dt_fields d) (Some utc_offset).

Definition isoformat (d : datetime) : string :=
  dt_fields d ++ match dt_tzinfo d with Some off => off | None => "" end.

Inductive pyval :=
| PNone
| PBool (b : bool)
| PInt (n : Z)
| PFloat (f : spec_float)
| PStr (s : string)
| PList (l : list pyval)
| PDict (d : list (string * pyval))
| PDatetime (d : datetime)
| PObject (cls : string) (text : string).
    (* an object of any other class (a tuple, a set, a Decimal, ...): the
       name of the class and what [str] returns on it *)

Definition py_dict := list (string * pyval).

(** Truth value testing, as [if v], [not v] and [or] use it. *)
Definition truthy (v : pyval) : bool :=
  match v with
  | PNone => false
  | PBool b => b
  | PInt n => negb (n =? 0)
  | PFloat (S754_zero _) => false
  | PFloat _ => true
  | PStr s => PyStr.nonempty s
  | PList l => match l with [] => false | _ => true end
  | PDict d => match d with [] => false | _ => true end
  | PDatetime _ => true
  | PObject _ _ => true
  end.

(** [a or b]. *)
Definition py_or (a b : pyval) : pyval := if truthy a then a else b.

(** An [Optional[str]] argument as the object the callee sees. *)
Definition of_opt_str (o : option string) : pyval :=
  match o with Some s => PStr s | None => PNone end.

Definition of_opt_int (o : option Z) : pyval :=
  match o with Some n => PInt n | None => PNone end.

Definition is_none (v : pyval) : bool :=
  match v with PNone => true | _ => false end.

(** The primitives of the Value Normalizer. *)
Definition is_primitive (v : pyval) : bool :=
  match v with
  | PNone | PBool _ | PInt _ | PFloat _ | PStr _ => true
  | _ => false
  end.

(** A primitive, or a list or dict built from such values only. *)
Fixpoint made_of_primitives (v : pyval) : bool :=
  match v with
  | PNone | PBool _ | PInt _ | PFloat _ | PStr _ => true
  | PList l => forallb made_of_primitives l
  | PDict d => forallb (fun kv => made_of_primitives (snd kv)) d
  | PDatetime _ | PObject _ _ => false
  end.

(** ** Dictionaries *)

Module Dict.

Fixpoint get (k : string) (d : py_dict) : option pyval :=
  match d with
  | [] => None
  | (k', v) :: r => if String.eqb k k' then Some v else get k r
  end.

(** [d.get(k)]: the value, or [None]. *)
Definition get_or_none (k : string) (d : py_dict) : pyval :=
  match get k d with Some v => v | None => PNone end.

Definition mem (k : string) (d : py_dict) : bool :=
  match get k d with Some _ => true | None => false end.

(** [d[k] = v]: an existing key keeps its place, a new one goes last. *)
Fixpoint set (k : string) (v : pyval) (d : py_dict) : py_dict :=
  match d with
  | [] => [(k, v)]
  | (k', v') :: r =>
      if String.eqb k k' then (k', v) :: r else (k', v') :: set k v r
  end.

(** [d.setdefault(k, v)], for its effect on [d]. *)
Definition setdefault (k : string) (v : pyval) (d : py_dict) : py_dict :=
  if mem k d then d else set k v d.

(** [d.update(e)], and the loop [for k, v in e.items(): d[k] = f(v)]. *)
Definition update_with (f : pyval -> pyval) (e d : py_dict) : py_dict :=
  fold_left (fun acc kv => set (fst kv) (f (snd kv)) acc) e d.

Definition update (e d : py_dict) : py_dict := update_with (fun v => v) e d.

Definition keys (d : py_dict) : list string := map fst d.

(** A Python dict holds each key once. *)
Definition wf (d : py_dict) : Prop := NoDup (keys d).

End Dict.

(** The name of the type of a value, as the interpreter prints it in the
    message of an AttributeError; for an object of another class, the name
    it was given. *)
Definition type_name (v : pyval) : string :=
  match v with
  | PNone => "NoneType"
  | PBool _ => "bool"
  | PInt _ => "int"
  | PFloat _ => "float"
  | PStr _ => "str"
  | PList _ => "list"
  | PDict _ => "dict"
  | PDatetime _ => "datetime.datetime"
  | PObject cls _ => cls
  end.

(** ** Exceptions *)

(** An exception object: the name of its class, what [str] does on it (the
    text, or the exception a failing [__str__] raises), and whether it is an
    instance of [Exception].  [KeyboardInterrupt], [SystemExit] and
    [GeneratorExit] are not: [except Exception] lets them through. *)
Inductive py_exc := mk_py_exc {
  exc_class : string;
  exc_str : string + py_exc;
  exc_is_exception : bool
}.

(** An instance of [Exception] with a message. *)
Definition mk_exc (cls text : string) : py_exc := mk_py_exc cls (inl text) true.

(** An exception outside [Exception]. *)
Definition mk_signal (cls text : string) : py_exc :=
  mk_py_exc cls (inl text) false.

Inductive result (A : Type) : Type :=
| Ok (a : A)
| Raise (e : py_exc).
Arguments Ok {A} a.
Arguments Raise {A} e.

Definition bind {A B} (m : result A) (k : A -> result B) : result B :=
  match m with
  | Ok a => k a
  | Raise e => Raise e
  end.

Notation "x <- m ;; k" := (bind m (fun x => k))
  (at level 61, m at next level, right associativity).

(** [str(e)]. *)
Definition py_str (e : py_exc) : result string :=
  match exc_str e with
  | inl text => Ok text
  | inr e' => Raise e'
  end.

(** [try: m except Exception: handler]: an exception that is not an
    instance of [Exception] passes through the handler. *)
Definition try_except {A} (m : result A) (handler : py_exc -> result A)
  : result A :=
  match m with
  | Ok a => Ok a
  | Raise e => if exc_is_exception e then handler e else Raise e
  end.

Definition ValueError (msg : string) : py_exc := mk_exc "ValueError" msg.
Definition TypeError (msg : string) : py_exc := mk_exc "TypeError" msg.
Definition AttributeError (msg : string) : py_exc := mk_exc "AttributeError" msg.
Definition NameError (msg : string) : py_exc := mk_exc "NameError" msg.
Definition OverflowError (msg : string) : py_exc := mk_exc "OverflowError" msg.

(** Reading an attribute the type of [v] does not have. *)
Definition no_attribute (v : pyval) (attr : string) : py_exc :=
  AttributeError
    ("'" ++ type_name v ++ "' object has no attribute '" ++ attr ++ "'").

(** ** _json.py *)

Definition jsonable (value : pyval) : pyval :=
  match value with
  | PNone => PNone
  | PStr _ | PInt _ | PFloat _ | PBool _ | PList _ | PDict _ => value
  | PDatetime d =>
      let d' := match dt_tzinfo d with
                | None => replace_tzinfo_utc d
                | Some _ => d
                end in
      PStr (isoformat d')
  | PObject _ text => PStr text
  end.

(** ** The environment *)

(** What the package asks of the operating system, the interpreter and the
    network while a logger is built.  [os.path.exists] and [os.path.isfile]
    answer [False] where the lookup fails and [os.path.dirname] is a
    function of the string; [os.getcwd], [os.path.abspath] (which asks for
    the working directory when the path is relative), the [socket] and
    [platform] queries and the reading of the config file can raise. *)
Record World := mk_world {
  os_getenv : string -> option string;
  os_getcwd : result string;
  os_path_exists : string -> bool;
  os_path_isfile : string -> bool;
  os_path_abspath : string -> result string;
  os_path_dirname : string -> string;
  (* [open(path)] followed by [json.load]: the decoded document, or the
     exception either of them raises *)
  json_load_file : string -> result pyval;
  (* [getattr(__main__, "__file__", None)] *)
  main_file : option string;
  sys_argv : list string;
  (* the [filename] of each frame [inspect.stack()] would list *)
  stack_filenames : list string;
  socket_gethostname : result string;
  socket_getfqdn : result string;
  socket_gethostbyname : string -> result string;
  platform_platform : result string;
  sys_version : string;
  (* [sys.get_int_max_str_digits()]: 0 when the limit is switched off *)
  int_max_str_digits : N
}.

(** ** _config.py *)

Definition load_automation_config (w : World) (config_path : string)
  : result pyval :=
  if negb (os_path_exists w config_path) then Ok (PDict [])
  else json_load_file w config_path.

(** ** _host.py *)

Definition get_host_context (w : World) : result py_dict :=
  host_name <- socket_gethostname w ;;
  fqdn <- socket_getfqdn w ;;
  host_ip <-
    try_except (ip <- socket_gethostbyname w host_name ;; Ok (PStr ip))
      (fun _ => Ok PNone) ;;
  platform <- platform_platform w ;;
  Ok (Dict.update
        [ ("host_name", PStr host_name);
          ("computername", of_opt_str (os_getenv w "COMPUTERNAME"));
          ("fqdn", PStr fqdn);
          ("host_ip", host_ip);
          ("platform", PStr platform);
          ("python", PStr (sys_version w)) ]
        []).

(** ** _paths.py *)

(** The names bound at module level in [_paths.py]: its imports and its two
    functions.  [inspect] is not among them. *)
Definition paths_module_globals : list string :=
  [ "annotations"; "os"; "sys"; "Optional";
    "resolve_entry_script_path"; "resolve_path" ].

(** Reading a global name of [_paths.py]. *)
Definition paths_global (name : string) : result unit :=
  if existsb (String.eqb name) paths_module_globals then Ok tt
  else Raise (NameError ("name '" ++ name ++ "' is not defined")).

(** [p = os.path.abspath(path)], then [p if os.path.isfile(p)]. *)
Definition existing_file (w : World) (path : string) : result (option string) :=
  p <- os_path_abspath w path ;;
  Ok (if os_path_isfile w p then Some p else None).

(** The body of the loop over the frames. *)
Fixpoint scan_frames (w : World) (frames : list string)
  : result (option string) :=
  match frames with
  | [] => Ok None
  | filename :: rest =>
      if negb (PyStr.nonempty filename) then scan_frames w rest
      else if PyStr.contains "automation_logger"
                (PyStr.replace_char "\" "/" filename)
      then scan_frames w rest
      else
        found <- existing_file w filename ;;
        match found with
        | Some p => Ok (Some p)
        | None => scan_frames w rest
        end
  end.

(** The third block of [resolve_entry_script_path], inside its [try]. *)
Definition stack_inspection (w : World) : result (option string) :=
  _ <- paths_global "inspect" ;;
  scan_frames w (stack_filenames w).

Definition resolve_entry_script_path (w : World) (explicit : option string)
  : result (option string) :=
  if truthy (of_opt_str explicit) then
    existing_file w (match explicit with Some e => e | None => "" end)
  else
    (* 1) __main__.__file__, under [try ... except Exception: pass] *)
    from_main <-
      try_except
        (if truthy (of_opt_str (main_file w)) then
           existing_file w (match main_file w with Some f => f | None => "" end)
         else Ok None)
        (fun _ => Ok None) ;;
    match from_main with
    | Some p => Ok (Some p)
    | None =>
        (* 2) sys.argv[0], outside any [try] *)
        from_argv <-
          match sys_argv w with
          | a0 :: _ =>
              if PyStr.nonempty a0 then existing_file w a0 else Ok None
          | [] => Ok None
          end ;;
        match from_argv with
        | Some p => Ok (Some p)
        | None =>
            (* 3) stack inspection, under [try ... except Exception: pass] *)
            try_except (stack_inspection w) (fun _ => Ok None)
        end
    end.

(** [v.strip().lower()]: only a [str] has [strip]. *)
Definition strip_lower (v : pyval) : result string :=
  match v with
  | PStr s => Ok (PyStr.lower (PyStr.strip s))
  | _ => Raise (no_attribute v "strip")
  end.

Definition resolve_path (w : World) (path_mode : string)
  (script_path : option string) : result string :=
  let path_mode :=
    PyStr.lower (PyStr.strip (if PyStr.nonempty path_mode then path_mode else "cwd")) in
  if String.eqb path_mode "script" && truthy (of_opt_str script_path) then
    p <- os_path_abspath w (match script_path with Some p => p | None => "" end) ;;
    Ok (os_path_dirname w p)
  else os_getcwd w.

(** ** Floats and clocks *)

Definition float := spec_float.
Definition float_sub : float -> float -> float := SFsub 53 1024.
Definition float_mul : float -> float -> float := SFmul 53 1024.

(** The float an [int] operand becomes in mixed arithmetic. *)
Definition float_of_int (n : positive) : float := binary_round 53 1024 false n 0.

(** [int(f)]: truncation toward zero; infinities and NaN are refused. *)
Definition int_of_float (f : float) : result Z :=
  match f with
  | S754_zero _ => Ok 0
  | S754_finite s m e => Ok (cond_Zopp s (Z.shiftl (Zpos m) e))
  | S754_infinity _ =>
      Raise (OverflowError "cannot convert float infinity to integer")
  | S754_nan => Raise (ValueError "cannot convert float NaN to integer")
  end.

(** ** logger.py *)

Record AutomationRunLogger := mk_logger {
  automation_id : pyval;
  schema_name : pyval;
  table_name : pyval;
  script_path : option string;
  output : py_dict;
  context : py_dict;
  flags : py_dict;
  _t0 : float;
  _success : bool;
  _run_time : option datetime
}.

Definition with_output (o : py_dict) (self : AutomationRunLogger) :=
  mk_logger (automation_id self) (schema_name self) (table_name self)
    (script_path self) o (context self) (flags self)
    (_t0 self) (_success self) (_run_time self).

Definition with_context (c : py_dict) (self : AutomationRunLogger) :=
  mk_logger (automation_id self) (schema_name self) (table_name self)
    (script_path self) (output self) c (flags self)
    (_t0 self) (_success self) (_run_time self).

Definition with_flags (f : py_dict) (self : AutomationRunLogger) :=
  mk_logger (automation_id self) (schema_name self) (table_name self)
    (script_path self) (output self) (context self) f
    (_t0 self) (_success self) (_run_time self).

Definition with_success (b : bool) (self : AutomationRunLogger) :=
  mk_logger (automation_id self) (schema_name self) (table_name self)
    (script_path self) (output self) (context self) (flags self)
    (_t0 self) b (_run_time self).

Definition with_start (t : float) (r : datetime) (self : AutomationRunLogger) :=
  mk_logger (automation_id self) (schema_name self) (table_name self)
    (script_path self) (output self) (context self) (flags self)
    t (_success self) (Some r).

(** The dataclass constructor as [from_config] calls it; [now] is what
    [time.time()] returns for the default of [_t0]. *)
Definition new_logger (now : float) (id schema table : pyval)
  (script : option string) : AutomationRunLogger :=
  mk_logger id schema table script [] [] [] now true None.

(** [cfg.get(key)]: only a [dict] has [get]. *)
Definition cfg_get (cfg : pyval) (key : string) : result pyval :=
  match cfg with
  | PDict d => Ok (Dict.get_or_none key d)
  | _ => Raise (no_attribute cfg "get")
  end.

(** The two ways [int] refuses a string. *)
Definition digit_limit_error (limit digits : N) : py_exc :=
  ValueError
    ("Exceeds the limit (" ++ decimal limit
       ++ " digits) for integer string conversion: value has "
       ++ decimal digits
       ++ " digits; use sys.set_int_max_str_digits() to increase the limit").

(** The message quotes the string, cut after 200 characters. *)
Definition invalid_literal_error (s : string) : py_exc :=
  ValueError
    ("invalid literal for int() with base 10: "
       ++ String.substring 0 200 ("'" ++ s ++ "'")).

(** [int(s)] for a string that passed [isdigit], so with no sign, space or
    underscore in it.  The interpreter counts the decimal digits the string
    starts with and refuses a count above [sys.get_int_max_str_digits()]
    (a count of 640 or less is never refused, and a limit of 0 switches the
    check off); then a character left after them, here a superscript digit,
    makes the literal invalid. *)
Definition int_of_digits (w : World) (s : string) : result Z :=
  let digits := N.of_nat (String.length (PyStr.decimal_prefix s)) in
  let limit := int_max_str_digits w in
  if ((640 <? digits) && (0 <? limit) && (limit <? digits))%N
  then Raise (digit_limit_error limit digits)
  else if PyStr.forall_chars PyStr.is_decimal s
  then Ok (PyStr.decimal_value 0 s)
  else Raise (invalid_literal_error s).

Definition env_automation_id (w : World) : result pyval :=
  match os_getenv w "AUTOMATION_ID" with
  | Some env_id =>
      if PyStr.nonempty env_id && PyStr.isdigit env_id then
        n <- int_of_digits w env_id ;; Ok (PInt n)
      else Ok PNone
  | None => Ok PNone
  end.

Definition from_config (w : World) (now : float)
  (config_path : string)
  (automation_id : option Z)
  (schema_name table_name script_path path_mode : option string)
  : result AutomationRunLogger :=
  cfg <- load_automation_config w config_path ;;
  cfg_id <- cfg_get cfg "automation_id" ;;
  env_id <- env_automation_id w ;;
  let final_id :=
    match automation_id with
    | Some n => PInt n
    | None => if negb (is_none cfg_id) then cfg_id else env_id
    end in
  if is_none final_id then
    Raise (ValueError
      "automation_id is required (arg, config, or AUTOMATION_ID env var).")
  else
  cfg_schema <- cfg_get cfg "schema_name" ;;
  let final_schema :=
    py_or (of_opt_str schema_name) (py_or cfg_schema (PStr "automations")) in
  cfg_table <- cfg_get cfg "table_name" ;;
  let final_table :=
    py_or (of_opt_str table_name) (py_or cfg_table (PStr "run_log")) in
  entry_script_path <- resolve_entry_script_path w script_path ;;
  cfg_mode <- cfg_get cfg "path_mode" ;;
  mode <- strip_lower
            (py_or (of_opt_str path_mode) (py_or cfg_mode (PStr "script"))) ;;
  let final_path_mode :=
    if String.eqb mode "script" && negb (truthy (of_opt_str entry_script_path))
    then "cwd" else mode in
  resolved_path <- resolve_path w final_path_mode entry_script_path ;;
  let logger := new_logger now final_id final_schema final_table entry_script_path in
  let ctx := Dict.set "config_path" (PStr config_path) (context logger) in
  let ctx := Dict.set "path_mode" (PStr final_path_mode) ctx in
  cwd <- os_getcwd w ;;
  let ctx := Dict.set "cwd" (PStr cwd) ctx in
  let ctx := Dict.set "resolved_path" (PStr resolved_path) ctx in
  let ctx :=
    match entry_script_path with
    | Some p =>
        if PyStr.nonempty p then
          Dict.set "entry_script_dir" (PStr (os_path_dirname w p))
            (Dict.set "entry_script_path" (PStr p) ctx)
        else ctx
    | None => ctx
    end in
  host <- get_host_context w ;;
  Ok (with_context (Dict.update host ctx) logger).

Definition set_output (payload : py_dict) (self : AutomationRunLogger)
  : AutomationRunLogger :=
  with_output (Dict.update_with jsonable payload []) self.

Definition add_output (key : string) (value : pyval)
  (self : AutomationRunLogger) : AutomationRunLogger :=
  with_output (Dict.set key (jsonable value) (output self)) self.

Definition mark_failure (self : AutomationRunLogger) : AutomationRunLogger :=
  with_success false self.

Definition flag_name_error : py_exc :=
  ValueError "flag name must be a non-empty string".

(** A keyword argument named like one of the two positional parameters
    cannot be passed through [**meta]: the call fails before the body of
    the method runs, on the first such keyword. *)
Definition reserved_keyword (meta : py_dict) : option string :=
  find (fun k => String.eqb k "self" || String.eqb k "name") (Dict.keys meta).

Definition keyword_error (k : string) : py_exc :=
  TypeError
    ("AutomationRunLogger.add_flag() got multiple values for argument '"
       ++ k ++ "'").

(** [self.add_flag(name, **meta)].  The metadata map of the flag is
    updated in place in the source; here the updated map is stored back,
    which is the same for a map held by the flags alone. *)
Definition add_flag (name : pyval) (meta : py_dict)
  (self : AutomationRunLogger) : result AutomationRunLogger :=
  match reserved_keyword meta with
  | Some k => Raise (keyword_error k)
  | None =>
  match name with
  | PStr name =>
      if negb (PyStr.nonempty name) then Raise flag_name_error else
      let name := PyStr.strip name in
      if negb (PyStr.nonempty name) then Raise flag_name_error else
      match meta with
      | [] => Ok (with_flags (Dict.setdefault name (PBool true) (flags self)) self)
      | _ =>
          let existing := Dict.get_or_none name (flags self) in
          let existing :=
            match existing with
            | PBool true | PNone => []
            | PDict d => d
            | other => [("value", jsonable other)]
            end in
          let existing := Dict.update_with jsonable meta existing in
          Ok (with_flags (Dict.set name (PDict existing) (flags self)) self)
      end
  | _ => Raise flag_name_error
  end
  end.

(** What finalization asks of the interpreter.  [json.dumps] refuses a
    datetime and an object of a class it does not know, and also an [int]
    with more digits than the interpreter converts and a value nested too
    deep; [print] fails on a closed or broken standard output.  Each is
    [None] when the call returns and the exception it raises otherwise. *)
Record Runtime := mk_runtime {
  json_dumps_raises : pyval -> option py_exc;
  print_raises : string -> option py_exc
}.

(** [json.dumps(v, ensure_ascii=False)]: the text is represented by the
    value it encodes. *)
Definition json_dumps (rt : Runtime) (v : pyval) : result pyval :=
  match json_dumps_raises rt v with
  | None => Ok v
  | Some e => Raise e
  end.

(** One call of [execute_query]: the table the statement names and its
    seven parameters. *)
Record insert_call := mk_insert {
  ins_schema : pyval;
  ins_table : pyval;
  ins_automation_id : pyval;
  ins_run_time : datetime;
  ins_context : pyval;
  ins_output : pyval;
  ins_flags : pyval;
  ins_success : bool;
  ins_duration_ms : Z
}.

(** The Persistence Sink ([WarehouseClient] and its [execute_query]):
    [None] when the write completes, the exception it raises otherwise. *)
Definition Sink := insert_call -> option py_exc.

(** What a call leaves outside the logger: the writes handed to the sink
    and the lines printed. *)
Record effects := mk_effects {
  sink_calls : list insert_call;
  printed : list string
}.

Definition no_effects : effects := mk_effects [] [].

Definition _insert_row (rt : Runtime) (sink : Sink) (self : AutomationRunLogger)
  (success : bool) (run_time : datetime) (duration_ms : Z)
  : list insert_call * result unit :=
  match json_dumps rt (PDict (output self)) with
  | Raise e => ([], Raise e)
  | Ok output_json_str =>
  match json_dumps rt (PDict (context self)) with
  | Raise e => ([], Raise e)
  | Ok context_json_str =>
  match json_dumps rt (PDict (flags self)) with
  | Raise e => ([], Raise e)
  | Ok flags_json_str =>
      let call :=
        mk_insert (schema_name self) (table_name self) (automation_id self)
          run_time context_json_str output_json_str flags_json_str
          success duration_ms in
      ([call], match sink call with
               | None => Ok tt
               | Some e => Raise e
               end)
  end end end.

(** [now] and [utcnow] are what [time.time()] and
    [datetime.now(timezone.utc)] return at the call. *)
Definition __enter__ (now : float) (utcnow : datetime)
  (self : AutomationRunLogger) : AutomationRunLogger :=
  with_start now utcnow self.

(** The exception leaving the [with] body, as [__exit__] receives it:
    [exc], whose class is [exc_type], and the text
    [traceback.format_exception] renders for it. *)
Record exc_info := mk_exc_info {
  ei_exc : py_exc;
  ei_traceback : string
}.

Definition error_entry (ei : exc_info) (message : string) : pyval :=
  PDict [ ("type", PStr (exc_class (ei_exc ei)));
          ("message", PStr message);
          ("traceback", PStr (ei_traceback ei)) ].

Definition duration_between (t0 now : float) : result Z :=
  int_of_float (float_mul (float_sub now t0) (float_of_int 1000)).

(** Lines 185 to 192 of [__exit__]: the logger as they leave it, and the
    exception of [str(exc)] when that raises, which happens after the
    success mark and the placeholder were written and before the entry
    is. *)
Definition note_exception (exc : option exc_info) (self : AutomationRunLogger)
  : AutomationRunLogger * result unit :=
  match exc with
  | Some ei =>
      let self := with_success false self in
      let self :=
        with_output (Dict.setdefault "error" (PDict []) (output self)) self in
      match py_str (ei_exc ei) with
      | Ok message =>
          (with_output (Dict.set "error" (error_entry ei message) (output self))
             self, Ok tt)
      | Raise e => (self, Raise e)
      end
  | None => (self, Ok tt)
  end.

(** The handler at line 197: the f-string calls [str(log_exc)], then
    [print] writes the line.  A line [print] fails on is not counted as
    printed. *)
Definition report_failure (rt : Runtime) (log_exc : py_exc)
  : list string * result unit :=
  match py_str log_exc with
  | Ok text =>
      let line := "[AutomationRunLogger] Failed to log run: " ++ text in
      match print_raises rt line with
      | None => ([line], Ok tt)
      | Some e => ([], Raise e)
      end
  | Raise e => ([], Raise e)
  end.

(** What a call of [__exit__] comes to: the logger as the call leaves it,
    the effects, and the value it returns or the exception it raises. *)
Record exit_outcome := mk_exit {
  exit_logger : AutomationRunLogger;
  exit_effects : effects;
  exit_result : result bool
}.

Definition __exit__ (rt : Runtime) (sink : Sink) (now : float)
  (utcnow : datetime) (exc : option exc_info) (self : AutomationRunLogger)
  : exit_outcome :=
  match duration_between (_t0 self) now with
  | Raise e => mk_exit self no_effects (Raise e)
  | Ok duration_ms =>
      let run_time :=
        match _run_time self with Some r => r | None => utcnow end in
      let '(self, noted) := note_exception exc self in
      match noted with
      | Raise e => mk_exit self no_effects (Raise e)
      | Ok _ =>
          let '(calls, r) :=
            _insert_row rt sink self (_success self) run_time duration_ms in
          match r with
          | Ok _ => mk_exit self (mk_effects calls []) (Ok false)
          | Raise log_exc =>
              (* [except Exception as log_exc] *)
              if exc_is_exception log_exc then
                let '(lines, reported) := report_failure rt log_exc in
                mk_exit self (mk_effects calls lines)
                  (_ <- reported ;; Ok false)
              else mk_exit self (mk_effects calls []) (Raise log_exc)
          end
      end
  end.

(** *** The [with] statement *)

(** The monitored work: what it leaves of the logger, and the exception
    that escapes it, if one does. *)
Definition Body := AutomationRunLogger -> AutomationRunLogger * option exc_info.

Record outcome := mk_outcome {
  final : AutomationRunLogger;
  trace : effects;
  propagated : option py_exc
}.

(** [with logger as log: body].  An exception [__exit__] raises replaces
    the one of the body; when [__exit__] returns, the exception of the body
    is raised again unless the value returned is true. *)
Definition with_statement (rt : Runtime) (sink : Sink)
  (t_enter : float) (utc_enter : datetime)
  (t_exit : float) (utc_exit : datetime)
  (body : Body) (logger : AutomationRunLogger) : outcome :=
  let log := __enter__ t_enter utc_enter logger in
  let '(log, exc) := body log in
  let x := __exit__ rt sink t_exit utc_exit exc log in
  mk_outcome (exit_logger x) (exit_effects x)
    (match exit_result x with
     | Ok suppress =>
         match exc with
         | Some ei => if suppress then None else Some (ei_exc ei)
         | None => None
         end
     | Raise e => Some e
     end).

(** *** The operations of a Recorder, as steps *)

Inductive op :=
| SetOutput (payload : py_dict)
| AddOutput (key : string) (value : pyval)
| MarkFailure
| AddFlag (name : pyval) (meta : py_dict)
| Enter (now : float) (utcnow : datetime)
| Exit (now : float) (utcnow : datetime) (exc : option exc_info).

Definition run_op (rt : Runtime) (sink : Sink) (o : op)
  (self : AutomationRunLogger) : result AutomationRunLogger :=
  match o with
  | SetOutput payload => Ok (set_output payload self)
  | AddOutput key value => Ok (add_output key value self)
  | MarkFailure => Ok (mark_failure self)
  | AddFlag name meta => add_flag name meta self
  | Enter now utcnow => Ok (__enter__ now utcnow self)
  | Exit now utcnow exc =>
      let x := __exit__ rt sink now utcnow exc self in
      _ <- exit_result x ;; Ok (exit_logger x)
  end.

Fixpoint run_ops (rt : Runtime) (sink : Sink) (os : list op)
  (self : AutomationRunLogger) : result AutomationRunLogger :=
  match os with
  | [] => Ok self
  | o :: rest => self' <- run_op rt sink o self ;; run_ops rt sink rest self'
  end.

(** * Notions used in the statements *)

(** ** Flags *)

(** The entry of a flag after a sequence of calls; [None] when a call
    raised or the flag is absent. *)
Definition flag_entry (key : string) (r : result AutomationRunLogger)
  : option pyval :=
  match r with
  | Ok s => Dict.get key (flags s)
  | Raise _ => None
  end.

(** The metadata map [add_flag] starts from, given what [flags.get(name)]
    returned. *)
Definition starting_map (existing : pyval) : py_dict :=
  match existing with
  | PBool true | PNone => []
  | PDict d => d
  | other => [("value", jsonable other)]
  end.

(** What [flags.get(name)] returns for a flag that is absent or holds the
    sentinel. *)
Definition is_blank_entry (v : pyval) : bool :=
  match v with
  | PNone | PBool true => true
  | _ => false
  end.

(** An entry that is neither a metadata map, nor the sentinel, nor [None]. *)
Definition is_other_entry (v : pyval) : bool :=
  match v with
  | PDict _ | PBool true | PNone => false
  | _ => true
  end.

(** Every key of the flags is a non-empty, trimmed string. *)
Definition flag_keys_ok (self : AutomationRunLogger) : Prop :=
  Forall (fun k => PyStr.nonempty k = true /\ PyStr.trimmed k = true)
         (Dict.keys (flags self)).

(** ** The Run Record Builder *)

(** The mode the caller asks for: [(path_mode or cfg.get("path_mode") or
    "script").strip().lower()], before any downgrade. *)
Definition requested_path_mode (cfg : pyval) (path_mode : option string)
  : result string :=
  cfg_mode <- cfg_get cfg "path_mode" ;;
  strip_lower (py_or (of_opt_str path_mode) (py_or cfg_mode (PStr "script"))).

(** The first candidate that is not [None]; [None] when there is none. *)
Fixpoint first_present (candidates : list pyval) : pyval :=
  match candidates with
  | [] => PNone
  | c :: rest => if is_none c then first_present rest else c
  end.

(** The first candidate that is truthy; the default when there is none. *)
Fixpoint first_truthy (candidates : list pyval) (default : pyval) : pyval :=
  match candidates with
  | [] => default
  | c :: rest => if truthy c then c else first_truthy rest default
  end.

(** The mode the context records, from the mode asked for and the entry
    script found. *)
Definition recorded_mode (mode : string) (entry : option string) : string :=
  if String.eqb mode "script" && negb (truthy (of_opt_str entry))
  then "cwd" else mode.

Definition missing_id_error : py_exc :=
  ValueError "automation_id is required (arg, config, or AUTOMATION_ID env var).".

Definition host_keys : list string :=
  ["host_name"; "computername"; "fqdn"; "host_ip"; "platform"; "python"].

Definition field_of {A} (f : AutomationRunLogger -> A)
  (r : result AutomationRunLogger) : option A :=
  match r with
  | Ok lg => Some (f lg)
  | Raise _ => None
  end.

(** The precedence as the specification words it, for one field: the
    explicit argument if given, else the config value if present, else the
    environment value if set, else the default. *)
Definition spec_precedence (explicit config env : option pyval)
  (default : pyval) : pyval :=
  match explicit, config, env with
  | Some v, _, _ => v
  | None, Some v, _ => v
  | None, None, Some v => v
  | None, None, None => default
  end.

(** The count of digits [int] converts without asking for the limit. *)
Definition within_digit_limit (w : World) (s : string) : bool :=
  let digits := N.of_nat (String.length (PyStr.decimal_prefix s)) in
  negb ((640 <? digits) && (0 <? int_max_str_digits w)
        && (int_max_str_digits w <? digits))%N.

(** The entries [from_config] writes into the context before the host
    facts. *)
Definition path_entries (w : World) (config_path mode cwd resolved : string)
  (entry : option string) : py_dict :=
  ([ ("config_path", PStr config_path);
     ("path_mode", PStr mode);
     ("cwd", PStr cwd);
     ("resolved_path", PStr resolved) ]
   ++ match entry with
      | Some p =>
          if PyStr.nonempty p
          then [ ("entry_script_path", PStr p);
                 ("entry_script_dir", PStr (os_path_dirname w p)) ]
          else []
      | None => []
      end)%list.

(** The logger [from_config] returns, from what its steps returned. *)
Definition built_logger (w : World) (now : float) (config_path : string)
  (id : option Z) (sn tn : option string)
  (cfg : py_dict) (env_id : pyval) (mode : string) (entry : option string)
  (resolved cwd : string) (host : py_dict) : AutomationRunLogger :=
  with_context
    (path_entries w config_path (recorded_mode mode entry) cwd resolved entry
       ++ host)%list
    (new_logger now
       (first_present
          [of_opt_int id; Dict.get_or_none "automation_id" cfg; env_id])
       (first_truthy [of_opt_str sn; Dict.get_or_none "schema_name" cfg]
          (PStr "automations"))
       (first_truthy [of_opt_str tn; Dict.get_or_none "table_name" cfg]
          (PStr "run_log"))
       entry).

(** ** The Entry-Point Resolver *)

(** The signals, each on its own. *)
Definition signal_explicit (w : World) (explicit : option string)
  : result (option string) :=
  match explicit with
  | Some e => if PyStr.nonempty e then existing_file w e else Ok None
  | None => Ok None
  end.

Definition signal_main (w : World) : result (option string) :=
  signal_explicit w (main_file w).

Definition signal_argv (w : World) : result (option string) :=
  signal_explicit w (hd_error (sys_argv w)).

Definition signal_stack (w : World) : result (option string) :=
  scan_frames w (stack_filenames w).

(** The paths the resolver can hand to [os.path.abspath]: the override,
    the main-module file and the first command-line argument. *)
Definition candidate_paths (w : World) (explicit : option string)
  : list string :=
  (match explicit with Some e => [e] | None => [] end
   ++ match main_file w with Some f => [f] | None => [] end
   ++ match sys_argv w with a0 :: _ => [a0] | [] => [] end)%list.

(** A signal read under [try ... except Exception: pass]. *)
Definition guarded (signal : result (option string)) : result (option string) :=
  try_except signal (fun _ => Ok None).

(** A lookup failure read as no signal, as the specification words it. *)
Definition or_no_signal (signal : result (option string)) : option string :=
  match signal with
  | Ok found => found
  | Raise _ => None
  end.

Definition or_else {A} (a b : option A) : option A :=
  match a with Some _ => a | None => b end.

(** The resolver as the specification words it: the four signals in order,
    the first that succeeds wins, and a failure counts as no signal. *)
Definition first_success_chain (w : World) (explicit : option string)
  : option string :=
  or_else (or_no_signal (signal_explicit w explicit))
    (or_else (or_no_signal (signal_main w))
       (or_else (or_no_signal (signal_argv w))
          (or_no_signal (signal_stack w)))).

(** ** Clock readings *)

(** A well-formed binary64 number. *)
Definition valid (f : float) : bool := valid_binary 53 1024 f.

(** [a <= b] on floats. *)
Definition float_le (a b : float) : bool := SFleb a b.

(** Not below zero; NaN, which [int] refuses, is let through. *)
Definition not_negative (f : float) : Prop :=
  match f with
  | S754_zero _ | S754_nan => True
  | S754_infinity s | S754_finite s _ _ => s = false
  end.

(** ** Finalization *)

(** The logger once [__exit__] has taken note of the exception. *)
Definition after_failure (exc : option exc_info) (self : AutomationRunLogger)
  : AutomationRunLogger :=
  fst (note_exception exc self).

(** The row [_insert_row] hands to the sink. *)
Definition row_of (self : AutomationRunLogger) (success : bool)
  (run_time : datetime) (duration_ms : Z) : insert_call :=
  mk_insert (schema_name self) (table_name self) (automation_id self)
    run_time (PDict (context self)) (PDict (output self)) (PDict (flags self))
    success duration_ms.

Definition failure_line (text : string) : string :=
  "[AutomationRunLogger] Failed to log run: " ++ text.

Definition run_time_of (self : AutomationRunLogger) (utcnow : datetime) : datetime :=
  match _run_time self with Some r => r | None => utcnow end.

(** [json.dumps] returns on the value. *)
Definition encodes (rt : Runtime) (v : pyval) : bool :=
  match json_dumps_raises rt v with
  | None => true
  | Some _ => false
  end.

(** [json.dumps] returns on output, context and flags. *)
Definition documents_encode (rt : Runtime) (self : AutomationRunLogger) : bool :=
  encodes rt (PDict (output self))
  && encodes rt (PDict (context self))
  && encodes rt (PDict (flags self)).

(** The first of the three documents [json.dumps] refuses, in the order
    [_insert_row] encodes them, with the exception. *)
Definition first_refusal (rt : Runtime) (self : AutomationRunLogger)
  : option py_exc :=
  match json_dumps_raises rt (PDict (output self)) with
  | Some e => Some e
  | None =>
      match json_dumps_raises rt (PDict (context self)) with
      | Some e => Some e
      | None => json_dumps_raises rt (PDict (flags self))
      end
  end.

(** What [__exit__] does once the duration is known and the exception is
    noted, in terms of what the encoder and the sink answer. *)
Definition finish (rt : Runtime) (self : AutomationRunLogger) (calls : list insert_call)
  (failure : option py_exc) : exit_outcome :=
  match failure with
  | None => mk_exit self (mk_effects calls []) (Ok false)
  | Some log_exc =>
      if exc_is_exception log_exc then
        mk_exit self (mk_effects calls (fst (report_failure rt log_exc)))
          (_ <- snd (report_failure rt log_exc) ;; Ok false)
      else mk_exit self (mk_effects calls []) (Raise log_exc)
  end.

(** ** Fixtures *)

(** A host on which the job [/srv/jobs/nightly.py] is started from the
    directory [/home/ops], where its config file is. *)
Module Demo.

Definition getenv (name : string) : option string :=
  if String.eqb name "AUTOMATION_ID" then Some "42" else None.

Definition abspath (p : string) : result string :=
  Ok (if String.prefix "/" p then p else "/home/ops/" ++ p).

Definition dirname (p : string) : string :=
  if String.eqb p "/srv/jobs/nightly.py" then "/srv/jobs" else "/".

Definition config_document : pyval :=
  PDict [ ("automation_id", PInt 7); ("schema_name", PStr "warehouse") ].

Definition world : World :=
  mk_world getenv (Ok "/home/ops")
    (String.eqb "automation.config")
    (String.eqb "/srv/jobs/nightly.py")
    abspath dirname
    (fun _ => Ok config_document)
    (Some "/srv/jobs/nightly.py") ["/srv/jobs/nightly.py"]
    ["/srv/jobs/nightly.py"]
    (Ok "batch01") (Ok "batch01.example.org")
    (fun _ => Ok "10.0.0.5")
    (Ok "Linux-6.1-x86_64") "3.11.2" 4300.

(** The same host, started from an interactive shell: no main file, an
    empty [argv[0]]. *)
Definition shell_world : World :=
  mk_world getenv (Ok "/home/ops")
    (String.eqb "automation.config")
    (String.eqb "/srv/jobs/nightly.py")
    abspath dirname
    (fun _ => Ok config_document)
    None [""] ["/srv/jobs/nightly.py"]
    (Ok "batch01") (Ok "batch01.example.org")
    (fun _ => Ok "10.0.0.5")
    (Ok "Linux-6.1-x86_64") "3.11.2" 4300.

Definition seconds (n : positive) : float := float_of_int n.

Definition logger : AutomationRunLogger :=
  new_logger (seconds 100) (PInt 7) (PStr "automations") (PStr "run_log") None.

Definition midnight : datetime := mk_datetime "2024-05-01T00:00:00" (Some utc_offset).

Definition boom : exc_info :=
  mk_exc_info (mk_exc "KeyError" "'rows'")
    "Traceback (most recent call last): KeyError: 'rows'".

(** A value of [n] digits, each the digit one. *)
Fixpoint ones (n : nat) : string :=
  match n with
  | O => EmptyString
  | S m => String "1" (ones m)
  end.

Definition sink_ok : Sink := fun _ => None.

Definition sink_down : Sink :=
  fun _ => Some (mk_exc "ConnectionError" "warehouse unreachable").

(** A sink interrupted from the keyboard while it writes. *)
Definition sink_interrupted : Sink :=
  fun _ => Some (mk_signal "KeyboardInterrupt" "").

(** The class of the first datetime, or object of another class, met in
    the value. *)
Fixpoint first_unencodable (v : pyval) : option string :=
  match v with
  | PNone | PBool _ | PInt _ | PFloat _ | PStr _ => None
  | PList l =>
      fold_right
        (fun x later =>
           match first_unencodable x with Some c => Some c | None => later end)
        None l
  | PDict d =>
      fold_right
        (fun kv later =>
           match first_unencodable (snd kv) with
           | Some c => Some c
           | None => later
           end)
        None d
  | PDatetime _ => Some "datetime"
  | PObject cls _ => Some cls
  end.

(** An interpreter whose [json] refuses datetimes and objects of other
    classes and nothing else, and whose standard output is open. *)
Definition runtime : Runtime :=
  mk_runtime
    (fun v =>
       match first_unencodable v with
       | Some c =>
           Some (TypeError ("Object of type " ++ c ++ " is not JSON serializable"))
       | None => None
       end)
    (fun _ => None).

(** The same interpreter with its standard output closed. *)
Definition closed_stdout : Runtime :=
  mk_runtime (json_dumps_raises runtime)
    (fun _ => Some (ValueError "I/O operation on closed file.")).

End Demo.

(** A host on which every environment variable is set to [from_env] and
    there is no config file. *)
Definition env_only_world : World :=
  mk_world (fun _ => Some "from_env") (Ok "/home/ops")
    (fun _ => false)
    (String.eqb "/srv/jobs/nightly.py")
    Demo.abspath Demo.dirname
    (fun _ => Raise (mk_exc "FileNotFoundError" "automation.config"))
    (Some "/srv/jobs/nightly.py") ["/srv/jobs/nightly.py"] []
    (Ok "batch01") (Ok "batch01.example.org")
    (fun _ => Ok "10.0.0.5")
    (Ok "Linux-6.1-x86_64") "3.11.2" 4300.

(** The first host, with AUTOMATION_ID set to the one character
    SUPERSCRIPT TWO (code point 178). *)
Definition superscript_world : World :=
  mk_world
    (fun name =>
       if String.eqb name "AUTOMATION_ID"
       then Some (String (ascii_of_N 178) EmptyString) else None)
    (Ok "/home/ops")
    (String.eqb "automation.config")
    (String.eqb "/srv/jobs/nightly.py")
    Demo.abspath Demo.dirname
    (fun _ => Ok Demo.config_document)
    (Some "/srv/jobs/nightly.py") ["/srv/jobs/nightly.py"] []
    (Ok "batch01") (Ok "batch01.example.org")
    (fun _ => Ok "10.0.0.5")
    (Ok "Linux-6.1-x86_64") "3.11.2" 4300.

(** What [os.getcwd] raises in a directory that was removed. *)
Definition no_such_directory : py_exc :=
  mk_exc "FileNotFoundError" "[Errno 2] No such file or directory".

(** The first host after its working directory was removed, the job
    started as [python nightly.py]: [os.getcwd] raises, and so does
    [os.path.abspath] on a relative path. *)
Definition removed_cwd_world : World :=
  mk_world Demo.getenv (Raise no_such_directory)
    (String.eqb "automation.config")
    (String.eqb "/srv/jobs/nightly.py")
    (fun p => if String.prefix "/" p then Ok p else Raise no_such_directory)
    Demo.dirname
    (fun _ => Ok Demo.config_document)
    (Some "nightly.py") ["nightly.py"] []
    (Ok "batch01") (Ok "batch01.example.org")
    (fun _ => Ok "10.0.0.5")
    (Ok "Linux-6.1-x86_64") "3.11.2" 4300.

Definition Demo_built : AutomationRunLogger :=
  match from_config Demo.world (Demo.seconds 100) "automation.config"
          None None None None None with
  | Ok lg => lg
  | Raise _ => Demo.logger
  end.

Definition Demo_shell_built : AutomationRunLogger :=
  match from_config Demo.shell_world (Demo.seconds 100) "automation.config"
          None None None None (Some " Script ") with
  | Ok lg => lg
  | Raise _ => Demo.logger
  end.

Definition Demo_ops : list op :=
  [ Enter (Demo.seconds 100) Demo.midnight;
    AddFlag (PStr " late ") [];
    AddFlag (PStr "late") [("minutes", PInt 5)];
    SetOutput [("rows", PInt 10)];
    MarkFailure;
    Exit (Demo.seconds 160) Demo.midnight None ].

Definition Demo_after : AutomationRunLogger :=
  match run_ops Demo.runtime Demo.sink_ok Demo_ops Demo_built with
  | Ok lg => lg
  | Raise _ => Demo.logger
  end.

(** ** Notions for the further properties *)

(** One of the shapes [json] knows at top level: not a datetime, not an
    object of another class. *)
Definition is_json_shape (v : pyval) : bool :=
  match v with
  | PDatetime _ | PObject _ _ => false
  | _ => true
  end.

(** An operation that does not report a failure. *)
Definition quiet_op (o : op) : bool :=
  match o with
  | MarkFailure | Exit _ _ (Some _) => false
  | _ => true
  end.

(** The same host with other frames on the call stack. *)
Definition with_stack (frames : list string) (w : World) : World :=
  mk_world (os_getenv w) (os_getcwd w) (os_path_exists w) (os_path_isfile w)
    (os_path_abspath w) (os_path_dirname w) (json_load_file w)
    (main_file w) (sys_argv w) frames
    (socket_gethostname w) (socket_getfqdn w) (socket_gethostbyname w)
    (platform_platform w) (sys_version w) (int_max_str_digits w).

(** The keys [from_config] writes into the context before the host facts. *)
Definition path_keys (entry : option string) : list string :=
  ["config_path"; "path_mode"; "cwd"; "resolved_path"]
  ++ (if truthy (of_opt_str entry)
      then ["entry_script_path"; "entry_script_dir"] else [])%list.

(** A host whose name does not resolve and whose config file holds a list. *)
Definition odd_world : World :=
  mk_world Demo.getenv (Ok "/home/ops")
    (String.eqb "automation.config")
    (String.eqb "/srv/jobs/nightly.py")
    Demo.abspath Demo.dirname
    (fun _ => Ok (PList [PInt 7]))
    (Some "/srv/jobs/nightly.py") ["/srv/jobs/nightly.py"] []
    (Ok "batch01") (Ok "batch01.example.org")
    (fun _ => Raise (mk_exc "gaierror" "Name or service not known"))
    (Ok "Linux-6.1-x86_64") "3.11.2" 4300.

Definition Demo_odd_built : AutomationRunLogger :=
  match from_config odd_world (Demo.seconds 100) "absent.config"
          (Some 7) None None None None with
  | Ok lg => lg
  | Raise _ => Demo.logger
  end.

(** Neither an infinity nor NaN. *)
Definition float_is_finite (f : float) : bool :=
  match f with
  | S754_zero _ | S754_finite _ _ _ => true
  | S754_infinity _ | S754_nan => false
  end.

(** A flag entry as [add_flag] makes them: the sentinel, or a map of
    normalized metadata. *)
Definition is_flag_entry (v : pyval) : bool :=
  match v with
  | PBool true => true
  | PDict d => forallb (fun kv => is_json_shape (snd kv)) d
  | _ => false
  end.

(** Every output value is normalized, every flag is a flag entry, and no
    key occurs twice. *)
Definition normalized (self : AutomationRunLogger) : Prop :=
  forallb (fun kv => is_json_shape (snd kv)) (output self) = true
  /\ forallb (fun kv => is_flag_entry (snd kv)) (flags self) = true
  /\ Dict.wf (output self) /\ Dict.wf (flags self).

(** * Lemmas *)

(** ** Strings *)

Module PyStrFacts.
Import PyStr.

Lemma lstrip_spaces l s : all_space l = true -> lstrip (l ++ s) = lstrip s.
Proof.
  unfold all_space.
  induction l as [|c l IH]; simpl; intros H; [reflexivity|].
  apply andb_true_iff in H as [Hc Hl]. rewrite Hc. now apply IH.
Qed.

Lemma rstrip_all_space r : all_space r = true -> rstrip r = "".
Proof.
  unfold all_space.
  induction r as [|c r IH]; simpl; intros H; [reflexivity|].
  apply andb_true_iff in H as [Hc Hr]. now rewrite IH, Hc.
Qed.

Lemma rstrip_spaces s r : all_space r = true -> rstrip (s ++ r) = rstrip s.
Proof.
  intros H. induction s as [|c s IH]; simpl.
  - now apply rstrip_all_space.
  - now rewrite IH.
Qed.

Lemma lstrip_empty_all_space s : lstrip s = "" -> all_space s = true.
Proof.
  unfold all_space.
  induction s as [|c s IH]; simpl; [reflexivity|].
  destruct (is_space c); simpl; [exact IH | discriminate].
Qed.

Lemma all_space_app a b :
  all_space (a ++ b) = all_space a && all_space b.
Proof.
  unfold all_space.
  induction a as [|c a IH]; simpl; [reflexivity|].
  now rewrite IH, andb_assoc.
Qed.

(** Where [lstrip] stops, it keeps the rest of the string. *)
Lemma lstrip_app s r :
  lstrip s <> "" -> lstrip (s ++ r) = lstrip s ++ r.
Proof.
  induction s as [|c s IH]; simpl; intros H; [congruence|].
  destruct (is_space c); [now apply IH | reflexivity].
Qed.

(** Whitespace around a name does not change what [strip] returns. *)
Lemma strip_surrounded l s r :
  all_space l = true -> all_space r = true ->
  strip (l ++ s ++ r) = strip s.
Proof.
  intros Hl Hr. unfold strip. rewrite lstrip_spaces by exact Hl.
  destruct (lstrip s) as [|c t] eqn:E.
  - assert (Hs : all_space (s ++ r) = true).
    { rewrite all_space_app, Hr, andb_true_r.
      now apply lstrip_empty_all_space. }
    assert (Hz : all_space (lstrip (s ++ r)) = true).
    { clear -Hs. unfold all_space in *.
      induction (s ++ r) as [|c u IH]; simpl; [reflexivity|].
      simpl in Hs. apply andb_true_iff in Hs as [Hc Hu].
      rewrite Hc. now apply IH. }
    now rewrite (rstrip_all_space _ Hz).
  - rewrite lstrip_app by congruence. rewrite E.
    now apply rstrip_spaces.
Qed.

Lemma lstrip_first s c :
  first_char (lstrip s) = Some c -> is_space c = false.
Proof.
  induction s as [|a s IH]; simpl; [discriminate|].
  destruct (is_space a) eqn:E; [exact IH|].
  simpl. intros [= <-]. exact E.
Qed.

Lemma rstrip_first s c :
  first_char s = Some c -> is_space c = false ->
  first_char (rstrip s) = Some c.
Proof.
  destruct s as [|a s]; simpl; [discriminate|].
  intros [= ->] Hc. destruct (rstrip s); [now rewrite Hc | reflexivity].
Qed.

Lemma rstrip_last s c :
  last_char (rstrip s) = Some c -> is_space c = false.
Proof.
  induction s as [|a s IH]; simpl; [discriminate|].
  destruct (rstrip s) as [|b t] eqn:E.
  - destruct (is_space a) eqn:Ea; simpl; [discriminate|].
    intros [= <-]. exact Ea.
  - simpl. exact IH.
Qed.

Lemma first_last_nonempty s :
  nonempty s = true -> exists a b, first_char s = Some a /\ last_char s = Some b.
Proof.
  induction s as [|c s IH]; simpl; [discriminate|]. intros _.
  exists c. destruct s as [|d s].
  - now exists c.
  - destruct (IH eq_refl) as (a & b & _ & Hb). now exists b.
Qed.

(** What [strip] returns has no whitespace at either end. *)
Lemma strip_trimmed s : trimmed (strip s) = true.
Proof.
  unfold trimmed.
  destruct (first_char (strip s)) as [a|] eqn:Fa; [|reflexivity].
  destruct (last_char (strip s)) as [b|] eqn:Lb; [|reflexivity].
  unfold strip in *. rewrite (rstrip_last _ _ Lb), andb_true_r.
  destruct (lstrip s) as [|c t] eqn:E; [discriminate|].
  assert (Hc : is_space c = false).
  { apply (lstrip_first s). now rewrite E. }
  rewrite (rstrip_first (String c t) c eq_refl Hc) in Fa.
  injection Fa as <-. now rewrite Hc.
Qed.

(** On a name that is already trimmed, [strip] changes nothing. *)
Lemma rstrip_id s :
  (forall b, last_char s = Some b -> is_space b = false) -> rstrip s = s.
Proof.
  induction s as [|c s IH]; simpl; [reflexivity|]. intros H.
  destruct s as [|d s].
  - simpl. now rewrite (H c eq_refl).
  - rewrite IH by exact H. reflexivity.
Qed.

Lemma strip_id s : trimmed s = true -> strip s = s.
Proof.
  unfold trimmed, strip. destruct s as [|c s]; [reflexivity|].
  destruct (first_last_nonempty (String c s) eq_refl) as (a & b & Ha & Hb).
  rewrite Ha, Hb. intros H. apply andb_true_iff in H as [H1 H2].
  simpl in Ha. injection Ha as <-.
  simpl lstrip. apply negb_true_iff in H1. rewrite H1.
  apply rstrip_id. intros b' Hb'. rewrite Hb in Hb'. injection Hb' as <-.
  now apply negb_true_iff.
Qed.

End PyStrFacts.

(** ** Dictionaries *)

Module DictFacts.
Import Dict.

Lemma get_set_same k v d : get k (set k v d) = Some v.
Proof.
  induction d as [|[k' v'] d IH]; simpl.
  - now rewrite String.eqb_refl.
  - destruct (String.eqb k k') eqn:E; simpl; rewrite E; [reflexivity | exact IH].
Qed.

Lemma get_set_other k k' v d : k <> k' -> get k (set k' v d) = get k d.
Proof.
  intros N. induction d as [|[k2 v2] d IH]; simpl.
  - apply String.eqb_neq in N. now rewrite N.
  - destruct (String.eqb k' k2) eqn:E; simpl.
    + apply String.eqb_eq in E. subst k2. apply String.eqb_neq in N.
      now rewrite N.
    + now rewrite IH.
Qed.

Lemma get_none_iff k d : get k d = None <-> ~ In k (keys d).
Proof.
  induction d as [|[k' v'] d IH]; simpl; [tauto|].
  destruct (String.eqb_spec k k') as [->|N].
  - split; [discriminate | intros H; exfalso; apply H; now left].
  - rewrite IH. split; [intros H [E|I]; [congruence | now apply H] | tauto].
Qed.

Lemma set_fresh k v d : get k d = None -> set k v d = (d ++ [(k, v)])%list.
Proof.
  induction d as [|[k' v'] d IH]; simpl; [reflexivity|].
  destruct (String.eqb k k'); [discriminate|]. intros H. now rewrite IH.
Qed.

Lemma keys_set k v d x : In x (keys (set k v d)) -> x = k \/ In x (keys d).
Proof.
  induction d as [|[k' v'] d IH]; simpl.
  - intros [<-|[]]. now left.
  - destruct (String.eqb k k'); simpl; [tauto|].
    intros [E|I]; [tauto|]. destruct (IH I); tauto.
Qed.

Lemma keys_setdefault k v d x :
  In x (keys (setdefault k v d)) -> x = k \/ In x (keys d).
Proof.
  unfold setdefault. destruct (mem k d); [tauto | apply keys_set].
Qed.

Lemma setdefault_present k v d v0 :
  get k d = Some v0 -> setdefault k v d = d.
Proof. unfold setdefault, mem. now intros ->. Qed.

Lemma get_setdefault_absent k v d :
  get k d = None -> get k (setdefault k v d) = Some v.
Proof. unfold setdefault, mem. intros ->. apply get_set_same. Qed.

Lemma setdefault_idem k v d :
  setdefault k v (setdefault k v d) = setdefault k v d.
Proof.
  destruct (get k d) as [v0|] eqn:E.
  - now rewrite !(setdefault_present k v d v0 E).
  - apply (setdefault_present _ _ _ v). now apply get_setdefault_absent.
Qed.

(** A key the update does not mention keeps its value. *)
Lemma get_update_with_other f k e d :
  ~ In k (keys e) -> get k (update_with f e d) = get k d.
Proof.
  unfold update_with. revert d.
  induction e as [|[k' v'] e IH]; simpl; intros d N; [reflexivity|].
  rewrite IH by tauto. apply get_set_other. intros ->. tauto.
Qed.

(** Last write wins: the value of [k] after the update is the image of
    its last binding in [e], and the old value when [e] has none. *)
Lemma get_update_with f k e d :
  get k (update_with f e d) =
  match get k (rev e) with
  | Some v => Some (f v)
  | None => get k d
  end.
Proof.
  unfold update_with. revert d.
  induction e as [|[k' v'] e IH]; simpl; intros d; [reflexivity|].
  rewrite IH.
  assert (G : forall a b, get k (a ++ [b])%list =
            match get k a with
            | Some v => Some v
            | None => if String.eqb k (fst b) then Some (snd b) else None
            end).
  { clear. induction a as [|[k1 v1] a IHa]; intros [kb vb]; simpl.
    - reflexivity.
    - destruct (String.eqb k k1); [reflexivity | apply IHa]. }
  rewrite G. destruct (get k (rev e)); [reflexivity|]. simpl.
  destruct (String.eqb_spec k k') as [->|N].
  - apply get_set_same.
  - now apply get_set_other.
Qed.

(** Built from nothing, out of a dict, the update is a map over it. *)
Lemma update_with_fresh f e acc :
  wf e -> (forall k, In k (keys e) -> get k acc = None) ->
  update_with f e acc = (acc ++ map (fun kv => (fst kv, f (snd kv))) e)%list.
Proof.
  unfold update_with, wf. revert acc.
  induction e as [|[k v] e IH]; simpl; intros acc W F.
  - now rewrite app_nil_r.
  - inversion W as [|? ? Hk We]; subst.
    rewrite IH; [| exact We |].
    + rewrite set_fresh by (apply F; now left).
      now rewrite <- app_assoc.
    + intros k' I. rewrite get_set_other; [apply F; now right|].
      intros ->. contradiction.
Qed.

Lemma map_id_on (f : pyval -> pyval) (e : py_dict) :
  Forall (fun kv => f (snd kv) = snd kv) e ->
  map (fun kv => (fst kv, f (snd kv))) e = e.
Proof.
  induction 1 as [|[k v] e H _ IH]; simpl; [reflexivity|].
  simpl in H. now rewrite H, IH.
Qed.

End DictFacts.

(** ** The Value Normalizer *)

Lemma jsonable_made_of_primitives v :
  made_of_primitives v = true -> jsonable v = v.
Proof. destruct v; simpl; intros H; try reflexivity; discriminate. Qed.

Lemma jsonable_primitive v : is_primitive v = true -> jsonable v = v.
Proof. destruct v; simpl; intros H; try reflexivity; discriminate. Qed.

Lemma primitive_made_of_primitives v :
  is_primitive v = true -> made_of_primitives v = true.
Proof. destruct v; simpl; intros H; try reflexivity; discriminate. Qed.

(** Whatever goes in, a string or one of the JSON-shaped values comes out. *)
Lemma jsonable_idempotent v : jsonable (jsonable v) = jsonable v.
Proof. now destruct v. Qed.

Lemma set_output_plain payload self :
  Dict.wf payload ->
  Forall (fun kv => made_of_primitives (snd kv) = true) payload ->
  output (set_output payload self) = payload.
Proof.
  intros W P. unfold set_output. destruct self; simpl.
  rewrite DictFacts.update_with_fresh; [| exact W | reflexivity].
  simpl. apply DictFacts.map_id_on.
  eapply Forall_impl; [|exact P]. intros kv. apply jsonable_made_of_primitives.
Qed.

(** ** Flags *)

Lemma with_flags_same self : with_flags (flags self) self = self.
Proof. now destruct self. Qed.

Lemma strip_nonempty x :
  PyStr.nonempty (PyStr.strip x) = true -> PyStr.nonempty x = true.
Proof. destruct x; [discriminate | reflexivity]. Qed.



Lemma add_flag_reserved name meta self k :
  reserved_keyword meta = Some k ->
  add_flag name meta self = Raise (keyword_error k).
Proof. intros H. unfold add_flag. now rewrite H. Qed.

Lemma add_flag_bare x self :
  PyStr.nonempty (PyStr.strip x) = true ->
  add_flag (PStr x) [] self =
  Ok (with_flags (Dict.setdefault (PyStr.strip x) (PBool true) (flags self)) self).
Proof.
  intros H. unfold add_flag. cbn [reserved_keyword Dict.keys map find].
  now rewrite (strip_nonempty x H), H.
Qed.

Lemma add_flag_meta x meta self :
  PyStr.nonempty (PyStr.strip x) = true -> meta <> [] ->
  reserved_keyword meta = None ->
  add_flag (PStr x) meta self =
  Ok (with_flags
        (Dict.set (PyStr.strip x)
           (PDict (Dict.update_with jsonable meta
                     (starting_map (Dict.get_or_none (PyStr.strip x) (flags self)))))
           (flags self)) self).
Proof.
  intros H M R. unfold add_flag. rewrite R, (strip_nonempty x H), H. simpl.
  destruct meta as [|m meta]; [congruence|]. reflexivity.
Qed.

Lemma add_flag_invalid x meta self :
  reserved_keyword meta = None ->
  PyStr.nonempty (PyStr.strip x) = false ->
  add_flag (PStr x) meta self = Raise flag_name_error.
Proof.
  intros R H. unfold add_flag. rewrite R.
  destruct (PyStr.nonempty x); simpl; [now rewrite H | reflexivity].
Qed.

(** A call of [add_flag] that returns was given a name that validates and
    no reserved keyword. *)
Lemma add_flag_ok_inv name meta self self' :
  add_flag name meta self = Ok self' ->
  reserved_keyword meta = None
  /\ exists x, name = PStr x /\ PyStr.nonempty (PyStr.strip x) = true.
Proof.
  intros E. destruct (reserved_keyword meta) as [k|] eqn:R.
  - now rewrite (add_flag_reserved _ _ _ _ R) in E.
  - split; [reflexivity|].
    destruct name as [| | | |x| | | |];
      try (unfold add_flag in E; rewrite R in E; discriminate).
    exists x. split; [reflexivity|].
    destruct (PyStr.nonempty (PyStr.strip x)) eqn:V; [reflexivity|].
    now rewrite (add_flag_invalid _ _ _ R V) in E.
Qed.

Lemma add_flag_keys x meta self self' k :
  add_flag x meta self = Ok self' ->
  In k (Dict.keys (flags self')) ->
  (PyStr.nonempty k = true /\ PyStr.trimmed k = true) \/
  In k (Dict.keys (flags self)).
Proof.
  intros E. destruct (add_flag_ok_inv _ _ _ _ E) as (R & y & -> & V).
  revert E. destruct meta as [|m meta].
  - rewrite add_flag_bare by exact V. intros [= <-] I.
    destruct self; simpl in *.
    apply DictFacts.keys_setdefault in I as [->|I]; [left | now right].
    split; [exact V | apply PyStrFacts.strip_trimmed].
  - rewrite add_flag_meta by (exact V || exact R || discriminate).
    intros [= <-] I.
    destruct self; simpl in *.
    apply DictFacts.keys_set in I as [->|I]; [left | now right].
    split; [exact V | apply PyStrFacts.strip_trimmed].
Qed.

Lemma add_flag_keeps_keys_ok x meta self self' :
  flag_keys_ok self -> add_flag x meta self = Ok self' -> flag_keys_ok self'.
Proof.
  unfold flag_keys_ok. intros Inv E. apply Forall_forall. intros k I.
  destruct (add_flag_keys _ _ _ _ _ E I) as [H|H]; [exact H|].
  now apply (proj1 (Forall_forall _ _) Inv).
Qed.

Lemma flag_entry_add_flag_meta x meta self :
  PyStr.nonempty (PyStr.strip x) = true -> meta <> [] ->
  reserved_keyword meta = None ->
  flag_entry (PyStr.strip x) (add_flag (PStr x) meta self)
  = Some (PDict (Dict.update_with jsonable meta
                   (starting_map (Dict.get_or_none (PyStr.strip x) (flags self))))).
Proof.
  intros V M R. rewrite add_flag_meta by assumption.
  destruct self; unfold flag_entry, with_flags; simpl.
  apply DictFacts.get_set_same.
Qed.

Lemma add_flag_surrounded l x r meta self :
  PyStr.all_space l = true -> PyStr.all_space r = true ->
  PyStr.nonempty (PyStr.strip x) = true ->
  add_flag (PStr (l ++ x ++ r)) meta self = add_flag (PStr x) meta self.
Proof.
  intros Hl Hr V.
  assert (V' : PyStr.nonempty (PyStr.strip (l ++ x ++ r)) = true)
    by now rewrite PyStrFacts.strip_surrounded.
  destruct (reserved_keyword meta) as [k|] eqn:R.
  - now rewrite !(add_flag_reserved _ _ _ _ R).
  - destruct meta as [|m meta].
    + rewrite !add_flag_bare by assumption.
      now rewrite PyStrFacts.strip_surrounded.
    + rewrite !add_flag_meta by (assumption || discriminate).
      now rewrite PyStrFacts.strip_surrounded.
Qed.

(** ** The Run Record Builder *)

(** The host facts, when [get_host_context] returns: six entries, the
    address [None] when the name does not resolve. *)
Lemma get_host_context_ok w host :
  get_host_context w = Ok host ->
  exists host_name fqdn platform,
    socket_gethostname w = Ok host_name
    /\ socket_getfqdn w = Ok fqdn
    /\ platform_platform w = Ok platform
    /\ host = [ ("host_name", PStr host_name);
                ("computername", of_opt_str (os_getenv w "COMPUTERNAME"));
                ("fqdn", PStr fqdn);
                ("host_ip",
                 match socket_gethostbyname w host_name with
                 | Ok ip => PStr ip
                 | Raise _ => PNone
                 end);
                ("platform", PStr platform);
                ("python", PStr (sys_version w)) ].
Proof.
  unfold get_host_context.
  destruct (socket_gethostname w) as [hn|]; cbn [bind]; [|discriminate].
  destruct (socket_getfqdn w) as [fq|]; cbn [bind]; [|discriminate].
  destruct (socket_gethostbyname w hn) as [ip|e] eqn:G; cbn [bind try_except].
  - destruct (platform_platform w) as [pf|]; cbn [bind]; [|discriminate].
    intros [= <-]. exists hn, fq, pf. rewrite G. repeat split.
  - destruct (exc_is_exception e); cbn [bind]; [|discriminate].
    destruct (platform_platform w) as [pf|]; cbn [bind]; [|discriminate].
    intros [= <-]. exists hn, fq, pf. rewrite G. repeat split.
Qed.

Lemma final_id_first_present (id : option Z) (cfg_id env_id : pyval) :
  match id with
  | Some n => PInt n
  | None => if negb (is_none cfg_id) then cfg_id else env_id
  end = first_present [of_opt_int id; cfg_id; env_id].
Proof.
  destruct id as [n|]; simpl; [reflexivity|].
  destruct (is_none cfg_id); simpl; [|reflexivity]. now destruct env_id.
Qed.

(** [from_config] up to the check of the id. *)
Lemma from_config_missing_id w now cp id sn tn sp pm cfg env_id :
  load_automation_config w cp = Ok (PDict cfg) ->
  env_automation_id w = Ok env_id ->
  first_present [of_opt_int id; Dict.get_or_none "automation_id" cfg; env_id]
  = PNone ->
  from_config w now cp id sn tn sp pm = Raise missing_id_error.
Proof.
  intros Hl He F. unfold from_config. rewrite Hl. cbn [bind cfg_get].
  rewrite He. cbn [bind]. rewrite final_id_first_present, F. reflexivity.
Qed.

(** [from_config] once the id is settled: the lookups, in the order the
    code makes them, then the logger. *)
Lemma from_config_after_id w now cp id sn tn sp pm cfg env_id :
  load_automation_config w cp = Ok (PDict cfg) ->
  env_automation_id w = Ok env_id ->
  first_present [of_opt_int id; Dict.get_or_none "automation_id" cfg; env_id]
  <> PNone ->
  from_config w now cp id sn tn sp pm
  = (entry <- resolve_entry_script_path w sp ;;
     mode <- requested_path_mode (PDict cfg) pm ;;
     resolved <- resolve_path w (recorded_mode mode entry) entry ;;
     cwd <- os_getcwd w ;;
     host <- get_host_context w ;;
     Ok (built_logger w now cp id sn tn cfg env_id mode entry resolved cwd host)).
Proof.
  intros Hl He F.
  unfold from_config, requested_path_mode. rewrite Hl. cbn [bind cfg_get].
  rewrite He. cbn [bind]. rewrite final_id_first_present.
  destruct (is_none (first_present _)) eqn:I.
  { destruct (first_present _); try discriminate. congruence. }
  destruct (resolve_entry_script_path w sp) as [entry|]; cbn [bind];
    [|reflexivity].
  destruct (strip_lower _) as [mode|]; cbn [bind]; [|reflexivity].
  fold (recorded_mode mode entry).
  destruct (resolve_path w (recorded_mode mode entry) entry) as [resolved|];
    cbn [bind]; [|reflexivity].
  destruct (os_getcwd w) as [cwd|]; cbn [bind]; [|reflexivity].
  destruct (get_host_context w) as [host|] eqn:Hh; cbn [bind]; [|reflexivity].
  destruct (get_host_context_ok _ _ Hh) as (hn & fq & pf & _ & _ & _ & ->).
  unfold built_logger, path_entries, new_logger, with_context, context,
    py_or, first_truthy.
  destruct entry as [p|]; [destruct (PyStr.nonempty p)|]; reflexivity.
Qed.

(** [from_config] returns when each of its steps does. *)
Lemma from_config_returns w now cp id sn tn sp pm
      cfg env_id mode entry resolved cwd host :
  load_automation_config w cp = Ok (PDict cfg) ->
  env_automation_id w = Ok env_id ->
  first_present [of_opt_int id; Dict.get_or_none "automation_id" cfg; env_id]
  <> PNone ->
  resolve_entry_script_path w sp = Ok entry ->
  requested_path_mode (PDict cfg) pm = Ok mode ->
  resolve_path w (recorded_mode mode entry) entry = Ok resolved ->
  os_getcwd w = Ok cwd ->
  get_host_context w = Ok host ->
  from_config w now cp id sn tn sp pm
  = Ok (built_logger w now cp id sn tn cfg env_id mode entry resolved cwd host).
Proof.
  intros Hl He F Hr Hm Hp Hc Hh.
  rewrite (from_config_after_id _ _ _ _ _ _ _ _ _ _ Hl He F).
  rewrite Hr. cbn [bind]. rewrite Hm. cbn [bind]. rewrite Hp. cbn [bind].
  rewrite Hc. cbn [bind]. now rewrite Hh.
Qed.

(** A logger [from_config] returns was built from a config mapping, a
    parsed environment value, an id, and steps that all returned. *)
Lemma from_config_ok_inv w now cp id sn tn sp pm lg :
  from_config w now cp id sn tn sp pm = Ok lg ->
  exists cfg env_id mode entry resolved cwd host,
    load_automation_config w cp = Ok (PDict cfg)
    /\ env_automation_id w = Ok env_id
    /\ first_present
         [of_opt_int id; Dict.get_or_none "automation_id" cfg; env_id] <> PNone
    /\ resolve_entry_script_path w sp = Ok entry
    /\ requested_path_mode (PDict cfg) pm = Ok mode
    /\ resolve_path w (recorded_mode mode entry) entry = Ok resolved
    /\ os_getcwd w = Ok cwd
    /\ get_host_context w = Ok host
    /\ lg = built_logger w now cp id sn tn cfg env_id mode entry resolved cwd host.
Proof.
  intros B.
  destruct (load_automation_config w cp) as [cfg|] eqn:Hl;
    [|unfold from_config in B; now rewrite Hl in B].
  destruct cfg as [| | | | | |cfg| |];
    try (unfold from_config in B; now rewrite Hl in B).
  destruct (env_automation_id w) as [env_id|] eqn:He;
    [|unfold from_config in B; rewrite Hl in B; cbn [bind cfg_get] in B;
      now rewrite He in B].
  assert (F : first_present
                [of_opt_int id; Dict.get_or_none "automation_id" cfg; env_id]
              <> PNone).
  { intros F. now rewrite (from_config_missing_id _ _ _ _ _ _ _ _ _ _ Hl He F) in B. }
  rewrite (from_config_after_id _ _ _ _ _ _ _ _ _ _ Hl He F) in B.
  destruct (resolve_entry_script_path w sp) as [entry|] eqn:Hr; cbn [bind] in B;
    [|discriminate].
  destruct (requested_path_mode (PDict cfg) pm) as [mode|] eqn:Hm;
    cbn [bind] in B; [|discriminate].
  destruct (resolve_path w (recorded_mode mode entry) entry) as [resolved|] eqn:Hp;
    cbn [bind] in B; [|discriminate].
  destruct (os_getcwd w) as [cwd|] eqn:Hc; cbn [bind] in B; [|discriminate].
  destruct (get_host_context w) as [host|] eqn:Hh; cbn [bind] in B;
    [|discriminate].
  injection B as <-.
  exists cfg, env_id, mode, entry, resolved, cwd, host.
  repeat (split; [assumption || reflexivity|]). reflexivity.
Qed.

Lemma from_config_flags w now cp id sn tn sp pm lg :
  from_config w now cp id sn tn sp pm = Ok lg -> flags lg = [].
Proof.
  intros B.
  destruct (from_config_ok_inv _ _ _ _ _ _ _ _ _ B)
    as (cfg & env_id & mode & entry & resolved & cwd & host & _ & _ & _ & _
        & _ & _ & _ & _ & ->).
  reflexivity.
Qed.

(** Reading the context of a logger that was built. *)
Lemma built_logger_context w now cp id sn tn cfg env_id mode entry resolved cwd host :
  let lg := built_logger w now cp id sn tn cfg env_id mode entry resolved cwd host in
  Dict.get "path_mode" (context lg) = Some (PStr (recorded_mode mode entry))
  /\ Dict.get "resolved_path" (context lg) = Some (PStr resolved)
  /\ Dict.get "config_path" (context lg) = Some (PStr cp)
  /\ Dict.get "cwd" (context lg) = Some (PStr cwd).
Proof.
  intros lg. subst lg. unfold built_logger, with_context, new_logger, context.
  repeat split; reflexivity.
Qed.

Lemma recorded_mode_script mode entry :
  recorded_mode mode entry = "script" ->
  mode = "script" /\ exists p, entry = Some p /\ PyStr.nonempty p = true.
Proof.
  unfold recorded_mode.
  destruct (String.eqb_spec mode "script") as [->|N]; simpl.
  - destruct entry as [p|]; simpl; [|discriminate].
    destruct (PyStr.nonempty p) eqn:E; simpl; [|discriminate].
    intros _. split; [reflexivity|]. now exists p.
  - intros ->. congruence.
Qed.

Lemma env_automation_id_value w env_id :
  env_automation_id w = Ok env_id ->
  env_id = match os_getenv w "AUTOMATION_ID" with
           | Some s =>
               if PyStr.isdigit s then PInt (PyStr.decimal_value 0 s) else PNone
           | None => PNone
           end.
Proof.
  unfold env_automation_id, int_of_digits.
  destruct (os_getenv w "AUTOMATION_ID") as [s|]; [|now intros [= <-]].
  destruct s as [|c s]; [now intros [= <-]|].
  cbn [PyStr.nonempty andb].
  destruct (PyStr.isdigit (String c s)); [|now intros [= <-]].
  match goal with
  | |- context [if ?b then Raise _ else _] => destruct b
  end; cbn [bind]; [discriminate|].
  destruct (PyStr.forall_chars PyStr.is_decimal (String c s));
    cbn [bind]; [now intros [= <-] | discriminate].
Qed.

Lemma requested_path_mode_value cfg pm mode :
  requested_path_mode (PDict cfg) pm = Ok mode ->
  exists s,
    first_truthy [of_opt_str pm; Dict.get_or_none "path_mode" cfg] (PStr "script")
    = PStr s /\ mode = PyStr.lower (PyStr.strip s).
Proof.
  unfold requested_path_mode, py_or, first_truthy. cbn [bind cfg_get].
  destruct (truthy (of_opt_str pm)).
  - destruct pm as [s|]; simpl; [|discriminate].
    intros [= <-]. now exists s.
  - destruct (truthy (Dict.get_or_none "path_mode" cfg)).
    + destruct (Dict.get_or_none "path_mode" cfg); simpl; try discriminate.
      intros [= <-]. now eexists.
    + simpl. intros [= <-]. now exists "script".
Qed.

(** ** The Entry-Point Resolver *)

(** The stack block reads a name the module never binds: whatever the
    frames are, it raises and the handler turns that into no signal. *)
Lemma stack_inspection_raises w :
  stack_inspection w = Raise (NameError "name 'inspect' is not defined").
Proof. reflexivity. Qed.

(** The resolver in terms of the signals. *)
Lemma resolve_entry_script_path_unfold w explicit :
  resolve_entry_script_path w explicit
  = if truthy (of_opt_str explicit) then signal_explicit w explicit
    else
      from_main <- guarded (signal_main w) ;;
      match from_main with
      | Some p => Ok (Some p)
      | None =>
          from_argv <- signal_argv w ;;
          match from_argv with
          | Some p => Ok (Some p)
          | None => Ok None
          end
      end.
Proof.
  unfold resolve_entry_script_path, signal_main, signal_argv, signal_explicit,
    guarded.
  destruct explicit as [e|]; cbn [of_opt_str truthy].
  - destruct (PyStr.nonempty e) eqn:N; [reflexivity|].
    destruct (main_file w) as [f|]; cbn [of_opt_str truthy];
      [destruct (PyStr.nonempty f)|];
      destruct (try_except _ _) as [[p|]|]; cbn [bind]; try reflexivity;
      destruct (sys_argv w) as [|a0 rest]; cbn [hd_error bind]; try reflexivity;
      destruct (PyStr.nonempty a0); cbn [bind]; try reflexivity;
      destruct (existing_file w a0) as [[q|]|]; reflexivity.
  - destruct (main_file w) as [f|]; cbn [of_opt_str truthy];
      [destruct (PyStr.nonempty f)|];
      destruct (try_except _ _) as [[p|]|]; cbn [bind]; try reflexivity;
      destruct (sys_argv w) as [|a0 rest]; cbn [hd_error bind]; try reflexivity;
      destruct (PyStr.nonempty a0); cbn [bind]; try reflexivity;
      destruct (existing_file w a0) as [[q|]|]; reflexivity.
Qed.

(** ** Clock readings *)

Module FloatFacts.

Lemma digits2_pos_size p : digits2_pos p = Pos.size p.
Proof. induction p; simpl; congruence. Qed.

Lemma digits_upper p : Zpos p < 2 ^ Zpos (digits2_pos p).
Proof.
  rewrite digits2_pos_size. pose proof (Pos.size_gt p) as H.
  rewrite <- Pos2Z.inj_pow. now apply Pos2Z.pos_lt_pos.
Qed.

Lemma digits_lower p : 2 ^ (Zpos (digits2_pos p) - 1) <= Zpos p.
Proof.
  rewrite digits2_pos_size. pose proof (Pos.size_le p) as H.
  apply Pos2Z.pos_le_pos in H. rewrite Pos2Z.inj_pow in H.
  assert (E : 2 ^ Zpos (Pos.size p) = 2 * 2 ^ (Zpos (Pos.size p) - 1)).
  { rewrite <- Z.pow_succ_r by lia. f_equal. lia. }
  rewrite E in H. change (Zpos p~0) with (2 * Zpos p) in H. lia.
Qed.

Lemma iter_xO_value m d : Zpos (Pos.iter xO m d) = Zpos m * 2 ^ Zpos d.
Proof.
  induction d as [|d IH] using Pos.peano_ind.
  - simpl. lia.
  - rewrite Pos.iter_succ, Pos2Z.inj_succ, Z.pow_succ_r by lia.
    change (Zpos (Pos.iter xO m d)~0) with (2 * Zpos (Pos.iter xO m d)).
    rewrite IH. lia.
Qed.

Lemma shl_align_value m e ez :
  ez <= e -> Zpos (fst (shl_align m e ez)) = Zpos m * 2 ^ (e - ez).
Proof.
  intros H. unfold shl_align.
  destruct (ez - e) as [|p|p] eqn:E.
  - replace (e - ez) with 0 by lia. now rewrite Z.pow_0_r, Z.mul_1_r.
  - lia.
  - cbn [fst]. rewrite iter_xO_value. f_equal. f_equal. lia.
Qed.

Lemma canonical_digits m e :
  canonical_mantissa 53 1024 m e = true ->
  Zpos (digits2_pos m) <= 53 /\ (-1074 < e -> Zpos (digits2_pos m) = 53).
Proof.
  unfold canonical_mantissa, fexp, emin. intros H. apply Z.eqb_eq in H. lia.
Qed.

(** Of two canonical mantissas, the one with the larger exponent is the
    larger number. *)
Lemma canonical_exponent_order m1 e1 m2 e2 :
  canonical_mantissa 53 1024 m1 e1 = true ->
  canonical_mantissa 53 1024 m2 e2 = true ->
  e1 < e2 -> Zpos m1 < Zpos m2 * 2 ^ (e2 - e1).
Proof.
  intros C1 C2 L.
  destruct (canonical_digits _ _ C1) as [D1 _].
  destruct (canonical_digits _ _ C2) as [_ D2].
  assert (E1 : -1074 <= e1).
  { unfold canonical_mantissa, fexp, emin in C1. apply Z.eqb_eq in C1. lia. }
  specialize (D2 ltac:(lia)).
  pose proof (digits_upper m1) as U. pose proof (digits_lower m2) as Lo.
  rewrite D2 in Lo.
  assert (P1 : 2 ^ Zpos (digits2_pos m1) <= 2 ^ 53)
    by (apply Z.pow_le_mono_r; lia).
  assert (P2 : 2 ^ 1 <= 2 ^ (e2 - e1)) by (apply Z.pow_le_mono_r; lia).
  change (2 ^ 1) with 2 in P2. change (53 - 1) with 52 in Lo.
  assert (2 ^ 53 = 2 * 2 ^ 52) by reflexivity.
  nia.
Qed.

Lemma binary_round_aux_sign s m e l :
  match binary_round_aux 53 1024 s m e l with
  | S754_zero s' | S754_infinity s' | S754_finite s' _ _ => s' = s
  | S754_nan => True
  end.
Proof.
  unfold binary_round_aux.
  destruct (shr_fexp 53 1024 m e l) as [mrs e'].
  destruct (shr_fexp 53 1024 _ e' loc_Exact) as [mrs' e''].
  destruct (shr_m mrs'); try exact I; [reflexivity|].
  now destruct (e'' <=? 1024 - 53).
Qed.

Lemma binary_round_sign s m e :
  match binary_round 53 1024 s m e with
  | S754_zero s' | S754_infinity s' | S754_finite s' _ _ => s' = s
  | S754_nan => True
  end.
Proof.
  unfold binary_round. destruct (shl_align _ _ _) as [mz ez].
  apply binary_round_aux_sign.
Qed.

Lemma binary_normalize_not_negative m e :
  0 <= m -> not_negative (binary_normalize 53 1024 m e false).
Proof.
  intros H. destruct m as [|p|p]; simpl; [exact I | | lia].
  pose proof (binary_round_sign false p e) as S.
  now destruct (binary_round 53 1024 false p e).
Qed.

(** The aligned difference [SFsub] rounds is not negative when the
    operands are in order. *)
Lemma aligned_difference x mx ex y my ey (sx sy : bool) :
  x = S754_finite sx mx ex -> y = S754_finite sy my ey ->
  valid x = true -> valid y = true -> float_le y x = true ->
  0 <= cond_Zopp sx (Zpos (fst (shl_align mx ex (Z.min ex ey))))
       - cond_Zopp sy (Zpos (fst (shl_align my ey (Z.min ex ey)))).
Proof.
  intros -> -> Vx Vy L.
  unfold valid, valid_binary, bounded in Vx, Vy.
  apply andb_true_iff in Vx as [Cx _]. apply andb_true_iff in Vy as [Cy _].
  rewrite !shl_align_value by lia.
  unfold float_le, SFleb, SFcompare in L.
  assert (Px : 0 < 2 ^ (ex - Z.min ex ey)) by (apply Z.pow_pos_nonneg; lia).
  assert (Py : 0 < 2 ^ (ey - Z.min ex ey)) by (apply Z.pow_pos_nonneg; lia).
  destruct sx, sy; unfold cond_Zopp; try discriminate; try nia.
  - (* both negative *)
    destruct (Z.compare_spec ey ex) as [E|E|E]; try discriminate.
    + subst ey. rewrite Pos.compare_cont_spec in L. cbn [Pos.switch_Eq] in L.
      rewrite Z.min_id, Z.sub_diag, Z.pow_0_r.
      destruct (Pos.compare_spec my mx) as [->|C|C]; try discriminate; lia.
    + pose proof (canonical_exponent_order _ _ _ _ Cx Cy E) as O.
      rewrite Z.min_l by lia. rewrite Z.sub_diag, Z.pow_0_r. lia.
  - (* both positive *)
    destruct (Z.compare_spec ey ex) as [E|E|E]; try discriminate.
    + subst ey. rewrite Pos.compare_cont_spec in L. cbn [Pos.switch_Eq] in L.
      rewrite Z.min_id, Z.sub_diag, Z.pow_0_r.
      destruct (Pos.compare_spec my mx) as [->|C|C]; try discriminate; lia.
    + pose proof (canonical_exponent_order _ _ _ _ Cy Cx E) as O.
      rewrite Z.min_r by lia. rewrite Z.sub_diag, Z.pow_0_r. lia.
Qed.

Lemma float_sub_not_negative t0 now :
  valid t0 = true -> valid now = true -> float_le t0 now = true ->
  not_negative (float_sub now t0).
Proof.
  intros V0 V1 L. unfold float_sub.
  destruct now as [sx|sx| |sx mx ex], t0 as [sy|sy| |sy my ey];
    unfold float_le, SFleb in L; simpl in L; try discriminate; simpl;
    try exact I.
  all: try (destruct sx, sy; simpl in *; try discriminate; try exact I; reflexivity).
  all: try (destruct sx; simpl in *; try discriminate; reflexivity).
  all: try (destruct sy; simpl in *; try discriminate; reflexivity).
  apply binary_normalize_not_negative.
  now apply (aligned_difference _ mx ex _ my ey sx sy eq_refl eq_refl).
Qed.

Lemma float_mul_1000_not_negative x :
  not_negative x -> not_negative (float_mul x (float_of_int 1000)).
Proof.
  intros H.
  change (float_of_int 1000) with (S754_finite false 8796093022208000 (-43)).
  unfold float_mul.
  destruct x as [s|s| |s m e]; simpl in *; try exact I.
  - now rewrite H.
  - subst s. simpl.
    pose proof (binary_round_aux_sign false
                  (Zpos (m * 8796093022208000)) (e + -43) loc_Exact) as S.
    now destruct (binary_round_aux 53 1024 false _ _ _).
Qed.

Lemma int_of_float_not_negative f d :
  not_negative f -> int_of_float f = Ok d -> 0 <= d.
Proof.
  destruct f as [s|s| |s m e]; simpl; intros H; try discriminate.
  - intros [= <-]. lia.
  - subst s. intros [= <-]. simpl. apply Z.shiftl_nonneg. lia.
Qed.

(** With the clock read in order, the duration is not negative. *)
Lemma duration_between_nonneg t0 now d :
  valid t0 = true -> valid now = true -> float_le t0 now = true ->
  duration_between t0 now = Ok d -> 0 <= d.
Proof.
  intros V0 V1 L. unfold duration_between.
  apply int_of_float_not_negative, float_mul_1000_not_negative.
  now apply float_sub_not_negative.
Qed.

End FloatFacts.

(** ** Finalization *)

Section Finalization.

Variable rt : Runtime.
Variable sink : Sink.

(** [_insert_row] makes no call when one of the three documents is
    refused, and raises what [json.dumps] raised on the first of them. *)
Lemma insert_row_refused self success run_time d e :
  first_refusal rt self = Some e ->
  _insert_row rt sink self success run_time d = ([], Raise e).
Proof.
  unfold first_refusal, _insert_row, json_dumps.
  destruct (json_dumps_raises rt (PDict (output self))) as [e1|];
    [now intros [= <-]|].
  destruct (json_dumps_raises rt (PDict (context self))) as [e2|];
    [now intros [= <-]|].
  now intros ->.
Qed.

(** Otherwise it makes one call, of the row above, and raises what the
    sink raises. *)
Lemma insert_row_encoded self success run_time d :
  first_refusal rt self = None ->
  _insert_row rt sink self success run_time d
  = ([row_of self success run_time d],
     match sink (row_of self success run_time d) with
     | None => Ok tt
     | Some e => Raise e
     end).
Proof.
  unfold first_refusal, _insert_row, json_dumps, row_of.
  destruct (json_dumps_raises rt (PDict (output self))); [discriminate|].
  destruct (json_dumps_raises rt (PDict (context self))); [discriminate|].
  now intros ->.
Qed.

Lemma first_refusal_none self :
  first_refusal rt self = None <-> documents_encode rt self = true.
Proof.
  unfold first_refusal, documents_encode, encodes.
  destruct (json_dumps_raises rt (PDict (output self)));
    [split; discriminate|].
  destruct (json_dumps_raises rt (PDict (context self)));
    [split; discriminate|].
  destruct (json_dumps_raises rt (PDict (flags self))); split;
    (reflexivity || discriminate).
Qed.

Lemma exit_unfold now utcnow exc self d :
  duration_between (_t0 self) now = Ok d ->
  snd (note_exception exc self) = Ok tt ->
  __exit__ rt sink now utcnow exc self
  = let self' := after_failure exc self in
    let row := row_of self' (_success self') (run_time_of self utcnow) d in
    match first_refusal rt self' with
    | Some e => finish rt self' [] (Some e)
    | None => finish rt self' [row] (sink row)
    end.
Proof.
  intros D N. unfold __exit__, after_failure. rewrite D.
  destruct (note_exception exc self) as [self' noted]. cbn [fst snd] in *.
  subst noted. cbv zeta. fold (run_time_of self utcnow).
  destruct (first_refusal rt self') as [e|] eqn:F.
  - rewrite (insert_row_refused _ _ _ _ _ F). unfold finish.
    destruct (exc_is_exception e); [|reflexivity].
    now destruct (report_failure rt e).
  - rewrite (insert_row_encoded _ _ _ _ F). unfold finish.
    destruct (sink _) as [e|]; [|reflexivity].
    destruct (exc_is_exception e); [|reflexivity].
    now destruct (report_failure rt e).
Qed.

(** When the duration cannot be computed nothing has happened yet. *)
Lemma exit_no_duration now utcnow exc self e :
  duration_between (_t0 self) now = Raise e ->
  __exit__ rt sink now utcnow exc self = mk_exit self no_effects (Raise e).
Proof. intros D. unfold __exit__. now rewrite D. Qed.

(** When [str(exc)] raises, the mark and the placeholder are written and
    nothing else is done. *)
Lemma exit_no_message now utcnow exc self d e :
  duration_between (_t0 self) now = Ok d ->
  snd (note_exception exc self) = Raise e ->
  __exit__ rt sink now utcnow exc self
  = mk_exit (after_failure exc self) no_effects (Raise e).
Proof.
  intros D N. unfold __exit__, after_failure. rewrite D.
  destruct (note_exception exc self) as [self' noted]. cbn [fst snd] in *.
  now subst noted.
Qed.

Lemma finish_calls self calls failure :
  sink_calls (exit_effects (finish rt self calls failure)) = calls.
Proof.
  unfold finish. destruct failure as [e|]; [|reflexivity].
  now destruct (exc_is_exception e).
Qed.

Lemma finish_logger self calls failure :
  exit_logger (finish rt self calls failure) = self.
Proof.
  unfold finish. destruct failure as [e|]; [|reflexivity].
  now destruct (exc_is_exception e).
Qed.

Lemma finish_returns self calls failure b :
  exit_result (finish rt self calls failure) = Ok b -> b = false.
Proof.
  unfold finish. destruct failure as [e|]; cbn; [|now intros [= <-]].
  destruct (exc_is_exception e); cbn; [|discriminate].
  destruct (snd (report_failure rt e)); cbn; [now intros [= <-] | discriminate].
Qed.

(** The three ways a call of [__exit__] can go. *)
Lemma exit_cases now utcnow exc self :
  (exists e, duration_between (_t0 self) now = Raise e
             /\ __exit__ rt sink now utcnow exc self
                = mk_exit self no_effects (Raise e))
  \/ (exists d e, duration_between (_t0 self) now = Ok d
                  /\ snd (note_exception exc self) = Raise e
                  /\ __exit__ rt sink now utcnow exc self
                     = mk_exit (after_failure exc self) no_effects (Raise e))
  \/ (exists d, duration_between (_t0 self) now = Ok d
                /\ snd (note_exception exc self) = Ok tt
                /\ __exit__ rt sink now utcnow exc self
                   = let self' := after_failure exc self in
                     let row := row_of self' (_success self')
                                  (run_time_of self utcnow) d in
                     match first_refusal rt self' with
                     | Some e => finish rt self' [] (Some e)
                     | None => finish rt self' [row] (sink row)
                     end).
Proof.
  destruct (duration_between (_t0 self) now) as [d|e] eqn:D.
  - destruct (snd (note_exception exc self)) as [[]|e] eqn:N.
    + right. right. exists d. split; [reflexivity|]. split; [reflexivity|].
      now apply exit_unfold.
    + right. left. exists d, e. split; [reflexivity|]. split; [reflexivity|].
      now apply (exit_no_message _ _ _ _ d).
  - left. exists e. split; [reflexivity|]. now apply exit_no_duration.
Qed.

(** A row handed to the sink is the row of the logger as the exception
    left it, with the duration computed, and it is the only one. *)
Lemma exit_calls now utcnow exc self c :
  In c (sink_calls (exit_effects (__exit__ rt sink now utcnow exc self))) ->
  exists d,
    duration_between (_t0 self) now = Ok d
    /\ snd (note_exception exc self) = Ok tt
    /\ first_refusal rt (after_failure exc self) = None
    /\ c = row_of (after_failure exc self) (_success (after_failure exc self))
             (run_time_of self utcnow) d
    /\ __exit__ rt sink now utcnow exc self
       = finish rt (after_failure exc self) [c] (sink c).
Proof.
  destruct (exit_cases now utcnow exc self)
    as [(e & D & E)|[(d & e & D & N & E)|(d & D & N & E)]];
    rewrite E; cbn [exit_effects sink_calls no_effects]; try contradiction.
  cbv zeta. destruct (first_refusal rt (after_failure exc self)) as [e|] eqn:F.
  - rewrite finish_calls. contradiction.
  - rewrite finish_calls. intros [<-|[]]. exists d. now repeat split.
Qed.

(** The logger as [__exit__] leaves it. *)
Lemma exit_logger_eq now utcnow exc self :
  exit_logger (__exit__ rt sink now utcnow exc self)
  = match duration_between (_t0 self) now with
    | Ok _ => after_failure exc self
    | Raise _ => self
    end.
Proof.
  destruct (exit_cases now utcnow exc self)
    as [(e & D & E)|[(d & e & D & N & E)|(d & D & N & E)]];
    rewrite E, D; try reflexivity.
  cbv zeta. destruct (first_refusal rt _); apply finish_logger.
Qed.

(** [__exit__] never returns anything but [False]. *)
Lemma exit_returns_false now utcnow exc self b :
  exit_result (__exit__ rt sink now utcnow exc self) = Ok b -> b = false.
Proof.
  destruct (exit_cases now utcnow exc self)
    as [(e & D & E)|[(d & e & D & N & E)|(d & D & N & E)]];
    rewrite E; try discriminate.
  cbv zeta. destruct (first_refusal rt _); apply finish_returns.
Qed.

(** When it returns, the exception of the body was noted. *)
Lemma exit_returns_noted now utcnow exc self b :
  exit_result (__exit__ rt sink now utcnow exc self) = Ok b ->
  (exists d, duration_between (_t0 self) now = Ok d)
  /\ snd (note_exception exc self) = Ok tt.
Proof.
  destruct (exit_cases now utcnow exc self)
    as [(e & D & E)|[(d & e & D & N & E)|(d & D & N & E)]];
    rewrite E; try discriminate.
  intros _. split; [now exists d | exact N].
Qed.

Lemma with_statement_unfold t_enter utc_enter t_exit utc_exit body logger
      lg exc :
  body (__enter__ t_enter utc_enter logger) = (lg, exc) ->
  with_statement rt sink t_enter utc_enter t_exit utc_exit body logger
  = let x := __exit__ rt sink t_exit utc_exit exc lg in
    mk_outcome (exit_logger x) (exit_effects x)
      (match exit_result x with
       | Ok suppress =>
           match exc with
           | Some ei => if suppress then None else Some (ei_exc ei)
           | None => None
           end
       | Raise e => Some e
       end).
Proof. intros B. unfold with_statement. now rewrite B. Qed.

End Finalization.

(** What the noting of the exception leaves of the logger. *)
Lemma note_exception_frame exc self :
  flags (after_failure exc self) = flags self
  /\ context (after_failure exc self) = context self
  /\ _t0 (after_failure exc self) = _t0 self
  /\ _run_time (after_failure exc self) = _run_time self
  /\ automation_id (after_failure exc self) = automation_id self
  /\ schema_name (after_failure exc self) = schema_name self
  /\ table_name (after_failure exc self) = table_name self
  /\ script_path (after_failure exc self) = script_path self
  /\ _success (after_failure exc self)
     = match exc with Some _ => false | None => _success self end.
Proof.
  unfold after_failure, note_exception.
  destruct exc as [ei|]; [|now repeat split].
  destruct (py_str (ei_exc ei)); destruct self; now repeat split.
Qed.


Lemma forallb_set (P : string * pyval -> bool) k v d :
  forallb P d = true -> (forall k', P (k', v) = true) ->
  forallb P (Dict.set k v d) = true.
Proof.
  intros H Hv. induction d as [|[k' v'] d IH]; simpl in *.
  - now rewrite Hv.
  - apply andb_true_iff in H as [H1 H2].
    destruct (String.eqb k k'); simpl.
    + now rewrite Hv, H2.
    + now rewrite H1, IH.
Qed.

(** ** The operations as steps *)

(** An [__exit__] step that returns leaves the logger as the noting of
    the exception left it. *)
Lemma run_op_exit_inv rt sink now utcnow exc self self' :
  run_op rt sink (Exit now utcnow exc) self = Ok self' ->
  self' = after_failure exc self.
Proof.
  cbn [run_op]. cbv zeta.
  destruct (exit_result (__exit__ rt sink now utcnow exc self)) as [b|e] eqn:R;
    cbn [bind]; [|discriminate].
  intros [= <-]. rewrite exit_logger_eq.
  destruct (exit_returns_noted _ _ _ _ _ _ _ R) as [[d ->] _]. reflexivity.
Qed.

(** [add_flag] changes the flags and nothing else. *)
Lemma add_flag_only_flags name meta self self' :
  add_flag name meta self = Ok self' ->
  self' = with_flags (flags self') self.
Proof.
  intros E. destruct (add_flag_ok_inv _ _ _ _ E) as (R & x & -> & V).
  revert E. destruct meta as [|m meta].
  - rewrite add_flag_bare by exact V. intros [= <-]. now destruct self.
  - rewrite add_flag_meta by (exact V || exact R || discriminate).
    intros [= <-]. now destruct self.
Qed.

Lemma run_op_keeps_keys_ok rt sink o self self' :
  flag_keys_ok self -> run_op rt sink o self = Ok self' -> flag_keys_ok self'.
Proof.
  intros Inv. destruct o.
  - intros [= <-]. now destruct self.
  - intros [= <-]. now destruct self.
  - intros [= <-]. now destruct self.
  - now apply add_flag_keeps_keys_ok.
  - intros [= <-]. now destruct self.
  - intros E. rewrite (run_op_exit_inv _ _ _ _ _ _ _ E). unfold flag_keys_ok.
    now rewrite (proj1 (note_exception_frame exc self)).
Qed.

Lemma run_ops_keeps_keys_ok rt sink os : forall self self',
  flag_keys_ok self -> run_ops rt sink os self = Ok self' -> flag_keys_ok self'.
Proof.
  induction os as [|o os IH]; simpl; intros self self' Inv.
  - now intros [= <-].
  - destruct (run_op rt sink o self) as [s1|e] eqn:E; simpl; [|discriminate].
    apply IH. now apply (run_op_keeps_keys_ok rt sink o self).
Qed.

(** * The claims *)

(** ** C1: precedence in [from_config] *)

Example from_config_examples :
  (* config beats the environment for the id *)
  field_of automation_id
    (from_config Demo.world (Demo.seconds 100) "automation.config"
       None None None None None) = Some (PInt 7) /\
  (* the argument beats both, and 0 is an id like any other *)
  field_of automation_id
    (from_config Demo.world (Demo.seconds 100) "automation.config"
       (Some 0) None None None None) = Some (PInt 0) /\
  (* the environment is read when nothing else gives an id *)
  field_of automation_id
    (from_config Demo.world (Demo.seconds 100) "absent.config"
       None None None None None) = Some (PInt 42) /\
  (* no id anywhere *)
  from_config env_only_world (Demo.seconds 100) "automation.config"
       None None None None None = Raise missing_id_error.
Proof. repeat split. Qed.

(** [isdigit] accepts the superscript digits and [int] does not: with such
    an AUTOMATION_ID the environment line raises, whatever the argument and
    the config file give. *)
Example superscript_digit_in_environment :
  from_config superscript_world (Demo.seconds 100) "automation.config"
    (Some 5) None None None None
  = Raise (ValueError
             ("invalid literal for int() with base 10: '"
                ++ String (ascii_of_N 178) "'")).
Proof. reflexivity. Qed.

(** C1, as stated, fails.  No environment value reaches schema_name or
    table_name: with every variable set, no argument and no config value,
    the defaults are used where the claim puts the environment value first.
    And an explicit argument that is the empty string loses to the config
    value. *)
Lemma C1_counterexample :
  (forall name, os_getenv env_only_world name = Some "from_env")
  /\ field_of schema_name
       (from_config env_only_world (Demo.seconds 100) "automation.config"
          (Some 7) None None None None)
     = Some (PStr "automations")
  /\ spec_precedence None None (Some (PStr "from_env")) (PStr "automations")
     = PStr "from_env"
  /\ field_of table_name
       (from_config env_only_world (Demo.seconds 100) "automation.config"
          (Some 7) None None None None)
     = Some (PStr "run_log")
  /\ field_of schema_name
       (from_config Demo.world (Demo.seconds 100) "automation.config"
          None (Some "") None None None)
     = Some (PStr "warehouse")
  /\ spec_precedence (Some (PStr "")) (Some (PStr "warehouse")) None
       (PStr "automations")
     = PStr "".
Proof. repeat split. Qed.

(** C1, amended.  With a config file that decodes to a mapping (or is
    absent), an AUTOMATION_ID that [int] reads, and a mode that is a string:
    automation_id is the first of argument, config value, environment value
    that is not None, and construction raises when there is none, the
    environment value being the decimal integer in AUTOMATION_ID when that
    is a string of digits and None otherwise; schema_name and table_name
    are, each on its own, the first of argument and config value that is
    truthy, else "automations" and "run_log", with no environment value;
    path_mode is the first of argument and config value that is truthy, else
    "script", with no environment value, trimmed and lower-cased, and
    recorded as "cwd" when it is "script" and no entry script was found.
    The logger with these fields is returned whenever the lookups of the
    entry script, the resolved path, the working directory and the host
    return, and every logger returned has these fields. *)
Theorem C1_precedence_per_field :
  forall (w : World) (now : float) (config_path : string) (id : option Z)
         (sn tn sp pm : option string)
         (cfg : py_dict) (env_id : pyval) (mode : string),
    load_automation_config w config_path = Ok (PDict cfg) ->
    env_automation_id w = Ok env_id ->
    requested_path_mode (PDict cfg) pm = Ok mode ->
    let final_id :=
      first_present
        [of_opt_int id; Dict.get_or_none "automation_id" cfg; env_id] in
    env_id = match os_getenv w "AUTOMATION_ID" with
             | Some s =>
                 if PyStr.isdigit s then PInt (PyStr.decimal_value 0 s)
                 else PNone
             | None => PNone
             end
    /\ (exists s,
          first_truthy [of_opt_str pm; Dict.get_or_none "path_mode" cfg]
            (PStr "script") = PStr s
          /\ mode = PyStr.lower (PyStr.strip s))
    /\ (final_id = PNone ->
        from_config w now config_path id sn tn sp pm = Raise missing_id_error)
    /\ (final_id <> PNone ->
        forall (entry : option string) (resolved cwd : string) (host : py_dict),
          resolve_entry_script_path w sp = Ok entry ->
          resolve_path w (recorded_mode mode entry) entry = Ok resolved ->
          os_getcwd w = Ok cwd ->
          get_host_context w = Ok host ->
          exists lg,
            from_config w now config_path id sn tn sp pm = Ok lg
            /\ automation_id lg = final_id
            /\ schema_name lg
               = first_truthy [of_opt_str sn; Dict.get_or_none "schema_name" cfg]
                   (PStr "automations")
            /\ table_name lg
               = first_truthy [of_opt_str tn; Dict.get_or_none "table_name" cfg]
                   (PStr "run_log")
            /\ Dict.get "path_mode" (context lg)
               = Some (PStr (recorded_mode mode entry)))
    /\ (forall lg,
          from_config w now config_path id sn tn sp pm = Ok lg ->
          exists entry,
            resolve_entry_script_path w sp = Ok entry
            /\ automation_id lg = final_id
            /\ schema_name lg
               = first_truthy [of_opt_str sn; Dict.get_or_none "schema_name" cfg]
                   (PStr "automations")
            /\ table_name lg
               = first_truthy [of_opt_str tn; Dict.get_or_none "table_name" cfg]
                   (PStr "run_log")
            /\ Dict.get "path_mode" (context lg)
               = Some (PStr (recorded_mode mode entry))).
Proof.
  intros w now cp id sn tn sp pm cfg env_id mode Hl He Hm final_id.
  split; [now apply env_automation_id_value|].
  split; [now apply requested_path_mode_value|].
  split; [intros F; now apply (from_config_missing_id _ _ _ _ _ _ _ _ cfg env_id)|].
  split.
  - intros F entry resolved cwd host Hr Hp Hc Hh.
    eexists. split.
    + exact (from_config_returns w now cp id sn tn sp pm cfg env_id mode
               entry resolved cwd host Hl He F Hr Hm Hp Hc Hh).
    + repeat split.
  - intros lg B.
    destruct (from_config_ok_inv _ _ _ _ _ _ _ _ _ B)
      as (cfg' & env_id' & mode' & entry & resolved & cwd & host
          & Hl' & He' & F & Hr & Hm' & Hp & Hc & Hh & ->).
    rewrite Hl in Hl'. injection Hl' as <-.
    rewrite He in He'. injection He' as <-.
    rewrite Hm in Hm'. injection Hm' as <-.
    exists entry. split; [exact Hr|]. repeat split.
Qed.

Lemma C1_witness :
  exists lg,
    from_config Demo.world (Demo.seconds 100) "automation.config"
      None None (Some "runs") None (Some " CWD ") = Ok lg
    /\ automation_id lg = PInt 7
    /\ schema_name lg = PStr "warehouse"
    /\ table_name lg = PStr "runs"
    /\ Dict.get "path_mode" (context lg) = Some (PStr "cwd").
Proof.
  destruct (C1_precedence_per_field
              Demo.world (Demo.seconds 100) "automation.config"
              None None (Some "runs") None (Some " CWD ")
              [ ("automation_id", PInt 7); ("schema_name", PStr "warehouse") ]
              (PInt 42) "cwd" eq_refl eq_refl eq_refl)
    as (_ & _ & _ & H & _).
  exact (H ltac:(discriminate) (Some "/srv/jobs/nightly.py")
           "/home/ops" "/home/ops" _ eq_refl eq_refl eq_refl eq_refl).
Defined.

(** ** C2: an exception escaping the monitored work *)

Example failing_run :
  let o := with_statement Demo.runtime Demo.sink_ok
             (Demo.seconds 100) Demo.midnight
             (Demo.seconds 160) Demo.midnight
             (fun s => (add_output "rows" (PInt 3) s, Some Demo.boom))
             Demo_built in
  map ins_success (sink_calls (trace o)) = [false]
  /\ map ins_duration_ms (sink_calls (trace o)) = [60000]
  /\ printed (trace o) = []
  /\ propagated o = Some (mk_exc "KeyError" "'rows'").
Proof. vm_compute. repeat split. Qed.



(** ** C3: [add_flag] with metadata *)

Example add_flag_merge_example :
  flag_entry "x"
    (s <- add_flag (PStr "x") [("a", PInt 1)] Demo.logger ;;
     add_flag (PStr "x") [("b", PInt 2)] s)
  = Some (PDict [("a", PInt 1); ("b", PInt 2)]).
Proof. reflexivity. Qed.

Example add_flag_overwrites_one_key :
  flag_entry "x"
    (s <- add_flag (PStr "x") [("a", PInt 1); ("c", PNone)] Demo.logger ;;
     add_flag (PStr "x") [("a", PInt 2)] s)
  = Some (PDict [("a", PInt 2); ("c", PNone)]).
Proof. reflexivity. Qed.

(** A keyword named like a parameter of the method never reaches the
    metadata: the call itself is refused. *)
Example add_flag_reserved_keyword :
  add_flag (PStr "x") [("name", PInt 1)] Demo.logger
  = Raise (TypeError
             "AutomationRunLogger.add_flag() got multiple values for argument 'name'").
Proof. reflexivity. Qed.

(** C3.  For a name [x] that validates, its entry is kept under the
    trimmed name, which is [x] itself when [x] has no whitespace around it.
    On a flag that is absent or holds the sentinel, [add_flag(x, a=1)] then
    [add_flag(x, b=2)] leaves the entry [{a: 1, b: 2}], and [add_flag(x)]
    then [add_flag(x, a=1)] leaves [{a: 1}].  On a flag that holds a
    metadata map, the new keys are merged into it, the last write winning
    per key and the other keys staying.  An entry that is neither a map, nor
    the sentinel, nor None is first wrapped as [{value: jsonable(entry)}].
    The metadata is any that can be passed as keywords: no key is "self" or
    "name". *)
Theorem C3_add_flag_merges_metadata :
  forall (x : string) (self : AutomationRunLogger),
    PyStr.nonempty (PyStr.strip x) = true ->
    let key := PyStr.strip x in
    (PyStr.trimmed x = true -> key = x)
    /\
    (is_blank_entry (Dict.get_or_none key (flags self)) = true ->
       flag_entry key
         (s <- add_flag (PStr x) [("a", PInt 1)] self ;;
          add_flag (PStr x) [("b", PInt 2)] s)
       = Some (PDict [("a", PInt 1); ("b", PInt 2)])
       /\
       flag_entry key
         (s <- add_flag (PStr x) [] self ;;
          add_flag (PStr x) [("a", PInt 1)] s)
       = Some (PDict [("a", PInt 1)]))
    /\
    (forall (d0 meta : py_dict),
       Dict.get key (flags self) = Some (PDict d0) -> meta <> [] ->
       reserved_keyword meta = None ->
       exists d,
         flag_entry key (add_flag (PStr x) meta self) = Some (PDict d) /\
         forall k,
           Dict.get k d =
           match Dict.get k (rev meta) with
           | Some v => Some (jsonable v)
           | None => Dict.get k d0
           end)
    /\
    (forall (v : pyval) (meta : py_dict),
       Dict.get key (flags self) = Some v -> is_other_entry v = true ->
       meta <> [] -> reserved_keyword meta = None ->
       flag_entry key (add_flag (PStr x) meta self)
       = Some (PDict (Dict.update_with jsonable meta [("value", jsonable v)]))).
Proof.
  intros x self V key. subst key.
  split; [apply PyStrFacts.strip_id|]. split; [|split].
  - intros A.
    assert (S0 : starting_map (Dict.get_or_none (PyStr.strip x) (flags self)) = []).
    { destruct (Dict.get_or_none (PyStr.strip x) (flags self)) as [|[|]| | | | | | |];
        simpl in A; try discriminate; reflexivity. }
    split.
    + rewrite (add_flag_meta x _ self V) by (discriminate || reflexivity).
      cbn [bind].
      rewrite flag_entry_add_flag_meta by (exact V || discriminate || reflexivity).
      rewrite S0.
      destruct self; unfold with_flags, Dict.get_or_none; simpl in *.
      rewrite DictFacts.get_set_same. reflexivity.
    + rewrite (add_flag_bare x self V). cbn [bind].
      rewrite flag_entry_add_flag_meta by (exact V || discriminate || reflexivity).
      destruct self; unfold with_flags, Dict.get_or_none in *; simpl in *.
      destruct (Dict.get (PyStr.strip x) flags0) as [v|] eqn:G.
      * rewrite (DictFacts.setdefault_present _ _ _ _ G), G.
        now rewrite S0.
      * now rewrite (DictFacts.get_setdefault_absent _ _ _ G).
  - intros d0 meta P M R.
    exists (Dict.update_with jsonable meta d0). split.
    + rewrite flag_entry_add_flag_meta by assumption.
      unfold Dict.get_or_none. now rewrite P.
    + intros k. apply DictFacts.get_update_with.
  - intros v meta P Hv M R.
    rewrite flag_entry_add_flag_meta by assumption.
    unfold Dict.get_or_none. rewrite P.
    destruct v as [|[|]| | | | | | |]; try discriminate; reflexivity.
Qed.

Lemma C3_witness :
  flag_entry "x"
    (s <- add_flag (PStr " x") [("a", PInt 1)] Demo.logger ;;
     add_flag (PStr " x") [("b", PInt 2)] s)
  = Some (PDict [("a", PInt 1); ("b", PInt 2)])
  /\
  flag_entry "x"
    (add_flag (PStr " x") [("b", PInt 2)]
       (with_flags [("x", PStr "legacy")] Demo.logger))
  = Some (PDict [("value", PStr "legacy"); ("b", PInt 2)]).
Proof.
  split.
  - destruct (C3_add_flag_merges_metadata " x" Demo.logger eq_refl)
      as (_ & F & _ & _).
    exact (proj1 (F eq_refl)).
  - destruct (C3_add_flag_merges_metadata " x"
                (with_flags [("x", PStr "legacy")] Demo.logger) eq_refl)
      as (_ & _ & _ & W).
    apply (W (PStr "legacy") [("b", PInt 2)]).
    + reflexivity.
    + reflexivity.
    + discriminate.
    + reflexivity.
Defined.

(** ** C4: the Entry-Point Resolver *)

Example resolver_examples :
  resolve_entry_script_path Demo.world None = Ok (Some "/srv/jobs/nightly.py") /\
  resolve_entry_script_path Demo.world (Some "/srv/jobs/nightly.py")
    = Ok (Some "/srv/jobs/nightly.py") /\
  resolve_entry_script_path Demo.world (Some "missing.py") = Ok None /\
  resolve_entry_script_path Demo.shell_world None = Ok None.
Proof. repeat split. Qed.

(** C4, as stated, fails.  With an override that names no file, the
    resolver returns nothing at once, although the main-module file would
    have been found by the chain the claim describes.  And it raises: on a
    host whose working directory was removed, [os.path.abspath] raises on a
    relative override, and on a relative first argument, and nothing
    catches it. *)
Lemma C4_counterexample :
  os_path_abspath Demo.world "missing.py" = Ok "/home/ops/missing.py"
  /\ os_path_isfile Demo.world "/home/ops/missing.py" = false
  /\ resolve_entry_script_path Demo.world (Some "missing.py") = Ok None
  /\ first_success_chain Demo.world (Some "missing.py")
     = Some "/srv/jobs/nightly.py"
  /\ resolve_entry_script_path removed_cwd_world (Some "nightly.py")
     = Raise no_such_directory
  /\ resolve_entry_script_path removed_cwd_world None
     = Raise no_such_directory.
Proof. repeat split. Qed.

(** C4, amended.  With a non-empty override the resolver answers from the
    override alone: its absolute path when that names an existing file,
    nothing otherwise.  Without one (None or empty) it tries the main-module
    file, then the first command-line argument, and the first of the two
    that names an existing file wins; a lookup of the main-module file that
    fails with an Exception counts as no signal there.  Every path it
    returns names an existing file, and it returns whenever
    [os.path.abspath] returns on the paths it is given. *)
Theorem C4_override_decides_alone :
  forall (w : World) (explicit : option string),
    (forall e p, explicit = Some e -> PyStr.nonempty e = true ->
       os_path_abspath w e = Ok p ->
       resolve_entry_script_path w explicit
       = Ok (if os_path_isfile w p then Some p else None))
    /\
    (truthy (of_opt_str explicit) = false ->
       (forall p, signal_main w = Ok (Some p) ->
          resolve_entry_script_path w explicit = Ok (Some p)) /\
       (forall p, guarded (signal_main w) = Ok None ->
          signal_argv w = Ok (Some p) ->
          resolve_entry_script_path w explicit = Ok (Some p)))
    /\
    (forall p, resolve_entry_script_path w explicit = Ok (Some p) ->
       os_path_isfile w p = true)
    /\
    ((forall path, In path (candidate_paths w explicit) ->
        exists p, os_path_abspath w path = Ok p) ->
     exists found, resolve_entry_script_path w explicit = Ok found).
Proof.
  intros w explicit.
  assert (X : forall path p, existing_file w path = Ok (Some p) ->
                os_path_isfile w p = true).
  { intros path p. unfold existing_file.
    destruct (os_path_abspath w path) as [q|]; cbn [bind]; [|discriminate].
    destruct (os_path_isfile w q) eqn:F; [|discriminate]. now intros [= <-]. }
  assert (S : forall o p, signal_explicit w o = Ok (Some p) ->
                os_path_isfile w p = true).
  { intros o p. unfold signal_explicit. destruct o as [e|]; [|discriminate].
    destruct (PyStr.nonempty e); [apply X | discriminate]. }
  rewrite resolve_entry_script_path_unfold.
  split; [|split; [|split]].
  - intros e p -> Ne A. cbn [of_opt_str truthy]. rewrite Ne.
    unfold signal_explicit, existing_file. now rewrite Ne, A.
  - intros Hx. rewrite Hx. split.
    + intros p M. unfold guarded. now rewrite M.
    + intros p M A. now rewrite M, A.
  - intros p. destruct (truthy (of_opt_str explicit)); [apply S|].
    destruct (guarded (signal_main w)) as [[q|]|] eqn:G; cbn [bind];
      [| |discriminate].
    + intros [= <-]. unfold guarded, try_except in G.
      destruct (signal_main w) as [m|e] eqn:M.
      * injection G as ->. exact (S _ _ M).
      * destruct (exc_is_exception e); discriminate.
    + destruct (signal_argv w) as [[q|]|] eqn:A; cbn [bind]; try discriminate.
      intros [= <-]. exact (S _ _ A).
  - intros T.
    assert (E : forall o,
              (forall e, o = Some e -> In e (candidate_paths w explicit)) ->
              exists found, signal_explicit w o = Ok found).
    { intros o I. unfold signal_explicit, existing_file.
      destruct o as [e|]; [|now eexists].
      destruct (PyStr.nonempty e); [|now eexists].
      destruct (T e (I e eq_refl)) as [p ->]. now eexists. }
    unfold candidate_paths in E.
    destruct (truthy (of_opt_str explicit)).
    { apply E. intros e ->. now left. }
    unfold guarded, signal_main, signal_argv.
    destruct (E (main_file w)) as [m ->].
    { intros f ->. apply in_or_app. right. now left. }
    cbn [try_except bind]. destruct m as [p|]; [now eexists|].
    destruct (E (hd_error (sys_argv w))) as [a ->].
    { intros a H. apply in_or_app. right. apply in_or_app. right.
      destruct (sys_argv w) as [|a0 rest]; [discriminate|].
      injection H as ->. now left. }
    cbn [bind]. destruct a; now eexists.
Qed.

Lemma C4_witness :
  resolve_entry_script_path Demo.world (Some "missing.py") = Ok None
  /\ resolve_entry_script_path Demo.world None = Ok (Some "/srv/jobs/nightly.py").
Proof.
  split.
  - exact (proj1 (C4_override_decides_alone Demo.world (Some "missing.py"))
             "missing.py" "/home/ops/missing.py" eq_refl eq_refl eq_refl).
  - destruct (C4_override_decides_alone Demo.world None) as (_ & H & _).
    exact (proj1 (H eq_refl) "/srv/jobs/nightly.py" eq_refl).
Defined.

(** ** C5: the path mode the context records *)

Example resolve_path_examples :
  resolve_path Demo.world " Script " (Some "/srv/jobs/nightly.py")
    = Ok "/srv/jobs" /\
  resolve_path Demo.world "script" None = Ok "/home/ops" /\
  resolve_path Demo.world "" (Some "/srv/jobs/nightly.py") = Ok "/home/ops" /\
  resolve_path Demo.world "cwd" (Some "/srv/jobs/nightly.py") = Ok "/home/ops" /\
  resolve_path Demo.world "elsewhere" (Some "/srv/jobs/nightly.py")
    = Ok "/home/ops".
Proof. repeat split. Qed.

(** C5.  When the mode asked for (argument, else config, else "script",
    trimmed and lower-cased) is "script" and the Entry-Point Resolver finds
    no entry script, the context of the logger built records path_mode
    "cwd", and resolved_path is the current working directory.  In every
    logger built, a recorded "script" goes with an entry script that was
    found and with its directory as resolved_path, and a recorded "cwd" goes
    with the current working directory. *)
Theorem C5_script_mode_without_entry_records_cwd :
  forall (w : World) (now : float) (config_path : string) (id : option Z)
         (sn tn sp pm : option string) (cfg : pyval)
         (lg : AutomationRunLogger),
    load_automation_config w config_path = Ok cfg ->
    from_config w now config_path id sn tn sp pm = Ok lg ->
    (requested_path_mode cfg pm = Ok "script" ->
     forall entry,
       resolve_entry_script_path w sp = Ok entry ->
       truthy (of_opt_str entry) = false ->
       Dict.get "path_mode" (context lg) = Some (PStr "cwd") /\
       exists cwd,
         os_getcwd w = Ok cwd /\
         Dict.get "resolved_path" (context lg) = Some (PStr cwd))
    /\
    (Dict.get "path_mode" (context lg) = Some (PStr "script") ->
     exists p q,
       resolve_entry_script_path w sp = Ok (Some p) /\ PyStr.nonempty p = true /\
       os_path_abspath w p = Ok q /\
       Dict.get "resolved_path" (context lg)
       = Some (PStr (os_path_dirname w q)))
    /\
    (Dict.get "path_mode" (context lg) = Some (PStr "cwd") ->
     exists cwd,
       os_getcwd w = Ok cwd /\
       Dict.get "resolved_path" (context lg) = Some (PStr cwd)).
Proof.
  intros w now cp id sn tn sp pm cfg lg Hl Hc.
  destruct (from_config_ok_inv _ _ _ _ _ _ _ _ _ Hc)
    as (cfg' & env_id & mode & entry & resolved & cwd & host
        & Hl' & He & F & Hr & Hm & Hp & Hw & Hh & ->).
  rewrite Hl in Hl'. injection Hl' as ->.
  destruct (built_logger_context w now cp id sn tn cfg' env_id mode entry
              resolved cwd host) as (Gm & Gr & _ & _).
  rewrite Gm, Gr. split; [|split].
  - intros Hs entry' Hr' Hn. rewrite Hm in Hs. injection Hs as ->.
    rewrite Hr in Hr'. injection Hr' as <-.
    unfold recorded_mode in *. rewrite Hn in *. cbn [String.eqb andb negb] in *.
    split; [reflexivity|]. exists cwd. split; [exact Hw|].
    unfold resolve_path in Hp. rewrite Hn, andb_false_r in Hp.
    congruence.
  - intros [= R]. destruct (recorded_mode_script _ _ R) as (-> & p & -> & Np).
    unfold resolve_path in Hp. rewrite R in Hp. cbn in Hp. rewrite Np in Hp.
    destruct (os_path_abspath w p) as [q|] eqn:A; cbn [bind] in Hp;
      [|discriminate].
    injection Hp as <-. exists p, q. now repeat split.
  - intros [= R]. rewrite R in Hp. exists cwd. split; [exact Hw|].
    unfold resolve_path in Hp. cbn in Hp. congruence.
Qed.

Lemma C5_witness :
  Dict.get "path_mode" (context Demo_shell_built) = Some (PStr "cwd") /\
  exists cwd,
    os_getcwd Demo.shell_world = Ok cwd /\
    Dict.get "resolved_path" (context Demo_shell_built) = Some (PStr cwd).
Proof.
  apply (proj1 (C5_script_mode_without_entry_records_cwd
                  Demo.shell_world (Demo.seconds 100) "automation.config"
                  None None None None (Some " Script ")
                  Demo.config_document Demo_shell_built
                  eq_refl eq_refl) eq_refl None eq_refl eq_refl).
Defined.

(** ** C6: a failing sink *)

(** C6, as stated, fails.  The handler is [except Exception]: a sink
    interrupted from the keyboard raises outside that class, so [__exit__]
    raises the interruption, nothing is printed, and the interruption takes
    the place of the KeyError of the monitored work.  And the handler
    prints: with the standard output closed, the ValueError of [print]
    leaves [__exit__] and takes the place of the KeyError. *)
Lemma C6_counterexample :
  let interrupted :=
    with_statement Demo.runtime Demo.sink_interrupted
      (Demo.seconds 100) Demo.midnight (Demo.seconds 160) Demo.midnight
      (fun s => (s, Some Demo.boom)) Demo_built in
  let unprinted :=
    with_statement Demo.closed_stdout Demo.sink_down
      (Demo.seconds 100) Demo.midnight (Demo.seconds 160) Demo.midnight
      (fun s => (s, Some Demo.boom)) Demo_built in
  ei_exc Demo.boom = mk_exc "KeyError" "'rows'"
  /\ map Demo.sink_interrupted (sink_calls (trace interrupted))
     = [Some (mk_signal "KeyboardInterrupt" "")]
  /\ printed (trace interrupted) = []
  /\ propagated interrupted = Some (mk_signal "KeyboardInterrupt" "")
  /\ map Demo.sink_down (sink_calls (trace unprinted))
     = [Some (mk_exc "ConnectionError" "warehouse unreachable")]
  /\ printed (trace unprinted) = []
  /\ propagated unprinted = Some (ValueError "I/O operation on closed file.").
Proof. vm_compute. repeat split. Qed.

(** C6, amended.  When the sink raises an instance of Exception on the
    row handed to it at finalization, and the line that reports it can be
    printed ([str] of the failure and [print] both return): the failure is
    printed and not raised; [__exit__] returns, and returns False; and the
    with statement lets through exactly the exception of the monitored work
    when there was one, and nothing when there was none. *)
Theorem C6_sink_failure_is_reported_and_swallowed :
  forall (rt : Runtime) (sink : Sink) (t_enter : float) (utc_enter : datetime)
         (t_exit : float) (utc_exit : datetime) (body : Body)
         (logger lg : AutomationRunLogger) (exc : option exc_info)
         (c : insert_call) (e : py_exc) (text : string),
    body (__enter__ t_enter utc_enter logger) = (lg, exc) ->
    let o := with_statement rt sink t_enter utc_enter t_exit utc_exit
               body logger in
    In c (sink_calls (trace o)) -> sink c = Some e ->
    exc_is_exception e = true ->
    py_str e = Ok text ->
    print_raises rt (failure_line text) = None ->
    printed (trace o) = [failure_line text]
    /\ exit_result (__exit__ rt sink t_exit utc_exit exc lg) = Ok false
    /\ propagated o = option_map ei_exc exc.
Proof.
  intros rt sink t_enter utc_enter t_exit utc_exit body logger lg exc c e text
         B o. subst o.
  rewrite (with_statement_unfold _ _ _ _ _ _ _ _ _ _ B).
  cbv zeta. cbn [final trace propagated].
  intros I Hs He Ht Hp.
  destruct (exit_calls _ _ _ _ _ _ _ I) as (d & _ & _ & _ & _ & E).
  rewrite E. unfold finish, report_failure. rewrite Hs, He, Ht.
  fold (failure_line text). rewrite Hp.
  cbn [fst snd bind exit_effects exit_result printed].
  repeat split.
Qed.

(** A document that cannot be encoded is treated the same way: nothing is
    handed to the sink, the [TypeError] is printed, and the exception of
    the monitored work still goes through. *)
Example unencodable_output_is_swallowed :
  let o := with_statement Demo.runtime Demo.sink_ok
             (Demo.seconds 100) Demo.midnight
             (Demo.seconds 160) Demo.midnight
             (fun s => (add_output "seen" (PList [PDatetime Demo.midnight]) s,
                        Some Demo.boom))
             Demo_built in
  sink_calls (trace o) = []
  /\ printed (trace o)
     = ["[AutomationRunLogger] Failed to log run: Object of type datetime is not JSON serializable"]
  /\ propagated o = Some (mk_exc "KeyError" "'rows'").
Proof. vm_compute. repeat split. Qed.

Lemma C6_witness :
  let o := with_statement Demo.runtime Demo.sink_down
             (Demo.seconds 100) Demo.midnight
             (Demo.seconds 160) Demo.midnight
             (fun s => (s, Some Demo.boom)) Demo_built in
  printed (trace o)
  = ["[AutomationRunLogger] Failed to log run: warehouse unreachable"]
  /\ propagated o = Some (mk_exc "KeyError" "'rows'").
Proof.
  intros o.
  destruct (C6_sink_failure_is_reported_and_swallowed
              Demo.runtime Demo.sink_down (Demo.seconds 100) Demo.midnight
              (Demo.seconds 160) Demo.midnight
              (fun s => (s, Some Demo.boom)) Demo_built
              (__enter__ (Demo.seconds 100) Demo.midnight Demo_built)
              (Some Demo.boom)
              (row_of (after_failure (Some Demo.boom)
                         (__enter__ (Demo.seconds 100) Demo.midnight Demo_built))
                 false Demo.midnight 60000)
              (mk_exc "ConnectionError" "warehouse unreachable")
              "warehouse unreachable"
              eq_refl)
    as (L & _ & P).
  - vm_compute. left. reflexivity.
  - reflexivity.
  - reflexivity.
  - reflexivity.
  - reflexivity.
  - split; [exact L | exact P].
Defined.

(** ** C7: the duration *)

(** C7, as stated, fails: [time.time()] is the wall clock, and when it is
    set back during the run the row carries a negative duration. *)
Lemma C7_counterexample :
  map ins_duration_ms
    (sink_calls
       (trace
          (with_statement Demo.runtime Demo.sink_ok
             (Demo.seconds 100) Demo.midnight
             (Demo.seconds 50) Demo.midnight (fun s => (s, None)) Demo_built)))
  = [-50000].
Proof. vm_compute. reflexivity. Qed.

(** C7, amended.  When the clock reading at exit is not below the reading
    taken at entry, every row handed to the sink carries a duration that is
    a non-negative integer. *)
Theorem C7_duration_nonnegative_when_clock_in_order :
  forall (rt : Runtime) (sink : Sink) (t_enter : float) (utc_enter : datetime)
         (t_exit : float) (utc_exit : datetime) (body : Body)
         (logger lg : AutomationRunLogger) (exc : option exc_info)
         (c : insert_call),
    body (__enter__ t_enter utc_enter logger) = (lg, exc) ->
    _t0 lg = t_enter ->
    valid t_enter = true -> valid t_exit = true ->
    float_le t_enter t_exit = true ->
    In c (sink_calls
            (trace (with_statement rt sink t_enter utc_enter t_exit utc_exit
                      body logger))) ->
    0 <= ins_duration_ms c.
Proof.
  intros rt sink t_enter utc_enter t_exit utc_exit body logger lg exc c
         B T V0 V1 L I.
  rewrite (with_statement_unfold _ _ _ _ _ _ _ _ _ _ B) in I.
  cbv zeta in I. cbn [trace] in I.
  destruct (exit_calls _ _ _ _ _ _ _ I) as (d & D & _ & _ & -> & _).
  cbn [row_of ins_duration_ms].
  rewrite T in D. now apply (FloatFacts.duration_between_nonneg t_enter t_exit).
Qed.

Lemma C7_witness :
  let o := with_statement Demo.runtime Demo.sink_ok
             (Demo.seconds 100) Demo.midnight
             (Demo.seconds 160) Demo.midnight (fun s => (s, None)) Demo_built in
  let row := row_of (__enter__ (Demo.seconds 100) Demo.midnight Demo_built)
               true Demo.midnight 60000 in
  In row (sink_calls (trace o)) /\ 0 <= ins_duration_ms row.
Proof.
  intros o row.
  assert (I : In row (sink_calls (trace o))) by (vm_compute; left; reflexivity).
  split; [exact I|].
  exact (C7_duration_nonnegative_when_clock_in_order
           Demo.runtime Demo.sink_ok (Demo.seconds 100) Demo.midnight
           (Demo.seconds 160) Demo.midnight (fun s => (s, None))
           Demo_built (__enter__ (Demo.seconds 100) Demo.midnight Demo_built)
           None row eq_refl eq_refl eq_refl eq_refl eq_refl I).
Defined.

(** ** C8: the Value Normalizer on primitives *)

Example jsonable_examples :
  jsonable (PInt 3) = PInt 3 /\
  jsonable (PList [PStr "a"; PNone]) = PList [PStr "a"; PNone] /\
  jsonable (PDatetime (mk_datetime "2024-05-01T10:00:00" None))
    = PStr "2024-05-01T10:00:00+00:00" /\
  jsonable (PObject "Decimal" "1.50") = PStr "1.50".
Proof. repeat split. Qed.

(** C8.  The Value Normalizer returns a primitive (None, bool, int, float,
    str), and a list or dict built from primitives only, as it received it;
    and after [set_output] of a mapping whose values are such, reading
    [output] gives that mapping back. *)
Theorem C8_normalizer_identity_on_primitives :
  forall (v : pyval) (payload : py_dict) (self : AutomationRunLogger),
    made_of_primitives v = true ->
    Dict.wf payload ->
    Forall (fun kv => is_primitive (snd kv) = true) payload ->
    jsonable v = v /\ output (set_output payload self) = payload.
Proof.
  intros v payload self Hv W P. split.
  - now apply jsonable_made_of_primitives.
  - apply set_output_plain; [exact W|].
    eapply Forall_impl; [|exact P].
    intros kv. apply primitive_made_of_primitives.
Qed.

Lemma C8_witness :
  jsonable (PDict [("rows", PList [PInt 1; PFloat (S754_zero false)])])
    = PDict [("rows", PList [PInt 1; PFloat (S754_zero false)])]
  /\ output (set_output [("rows", PInt 10); ("note", PStr "ok"); ("skipped", PNone)]
               Demo.logger)
     = [("rows", PInt 10); ("note", PStr "ok"); ("skipped", PNone)].
Proof.
  apply (C8_normalizer_identity_on_primitives
           (PDict [("rows", PList [PInt 1; PFloat (S754_zero false)])])
           [("rows", PInt 10); ("note", PStr "ok"); ("skipped", PNone)]
           Demo.logger).
  - reflexivity.
  - unfold Dict.wf. simpl. repeat constructor; simpl; intuition discriminate.
  - repeat constructor.
Defined.

(** ** C9: [add_flag] without metadata *)

Example add_flag_twice :
  flag_entry "x"
    (s <- add_flag (PStr "x") [] Demo.logger ;; add_flag (PStr "x") [] s)
  = Some (PBool true).
Proof. reflexivity. Qed.

(** C9.  For a name that validates, [add_flag] without metadata is
    idempotent: a second call changes nothing; when the flag is absent the
    entry is [True] after one call and after two; and when the flag already
    has an entry of any form the call leaves the logger as it was. *)
Theorem C9_add_flag_bare_idempotent :
  forall (x : string) (self : AutomationRunLogger),
    PyStr.nonempty (PyStr.strip x) = true ->
    let key := PyStr.strip x in
    let once := add_flag (PStr x) [] self in
    let twice := s <- add_flag (PStr x) [] self ;; add_flag (PStr x) [] s in
    twice = once
    /\ (Dict.get key (flags self) = None ->
        flag_entry key once = Some (PBool true) /\
        flag_entry key twice = Some (PBool true))
    /\ (forall v, Dict.get key (flags self) = Some v -> once = Ok self).
Proof.
  intros x self V key once twice. subst once twice key.
  rewrite (add_flag_bare x self V). cbn [bind].
  rewrite (add_flag_bare x _ V).
  split; [|split].
  - f_equal. destruct self; unfold with_flags; simpl.
    now rewrite DictFacts.setdefault_idem.
  - intros A. destruct self; unfold flag_entry, with_flags; simpl in *.
    rewrite DictFacts.setdefault_idem.
    now rewrite (DictFacts.get_setdefault_absent _ _ _ A).
  - intros v P. rewrite (DictFacts.setdefault_present _ _ _ _ P).
    now rewrite with_flags_same.
Qed.

Lemma C9_witness :
  let self := with_flags [("late", PDict [("minutes", PInt 5)])] Demo.logger in
  (s <- add_flag (PStr " late ") [] self ;; add_flag (PStr " late ") [] s)
    = add_flag (PStr " late ") [] self
  /\ add_flag (PStr " late ") [] self = Ok self.
Proof.
  intros self.
  destruct (C9_add_flag_bare_idempotent " late " self eq_refl) as (I & _ & P).
  split; [exact I | exact (P _ eq_refl)].
Defined.

(** ** C10: the keys of the flags *)

Example add_flag_rejects_blank :
  add_flag (PStr "   ") [] Demo.logger = Raise flag_name_error /\
  add_flag (PStr "") [("a", PInt 1)] Demo.logger = Raise flag_name_error /\
  add_flag (PInt 3) [] Demo.logger = Raise flag_name_error.
Proof. repeat split. Qed.

Example demo_after_flags :
  flags Demo_after = [("late", PDict [("minutes", PInt 5)])].
Proof. vm_compute. reflexivity. Qed.

(** C10.  Every key of [flags] is a non-empty string with no whitespace at
    either end: this holds of a logger [from_config] builds, every operation
    of the logger that returns keeps it, and so it holds after any sequence
    of operations; [add_flag] files the flag under the trimmed name, so the
    name and the name surrounded by whitespace address the same entry, which
    is there after any call with metadata that can be passed as keywords. *)
Theorem C10_flag_keys_are_trimmed_names :
  forall (w : World) (rt : Runtime) (sink : Sink) (now : float)
         (config_path : string)
         (id : option Z) (sn tn sp pm : option string)
         (lg lg' : AutomationRunLogger) (os : list op)
         (l x r : string) (meta : py_dict) (self : AutomationRunLogger),
    from_config w now config_path id sn tn sp pm = Ok lg ->
    run_ops rt sink os lg = Ok lg' ->
    PyStr.all_space l = true -> PyStr.all_space r = true ->
    PyStr.nonempty (PyStr.strip x) = true ->
    flag_keys_ok lg
    /\ flag_keys_ok lg'
    /\ (forall o s s',
          flag_keys_ok s -> run_op rt sink o s = Ok s' -> flag_keys_ok s')
    /\ add_flag (PStr (l ++ x ++ r)) meta self = add_flag (PStr x) meta self
    /\ (reserved_keyword meta = None ->
        exists s', add_flag (PStr x) meta self = Ok s' /\
                   Dict.mem (PyStr.strip x) (flags s') = true).
Proof.
  intros w rt sink now cp id sn tn sp pm lg lg' os l x r meta self
         Hc Hr Hl Hr' V.
  assert (I0 : flag_keys_ok lg).
  { unfold flag_keys_ok. rewrite (from_config_flags _ _ _ _ _ _ _ _ _ Hc).
    constructor. }
  split; [exact I0|]. split; [now apply (run_ops_keeps_keys_ok rt sink os lg)|].
  split; [intros o s s'; apply run_op_keeps_keys_ok|].
  split; [now apply add_flag_surrounded|].
  intros R. destruct meta as [|m meta].
  - rewrite add_flag_bare by exact V. eexists. split; [reflexivity|].
    destruct self; unfold with_flags, Dict.mem; simpl.
    destruct (Dict.get (PyStr.strip x) flags0) eqn:E.
    + now rewrite (DictFacts.setdefault_present _ _ _ _ E), E.
    + now rewrite (DictFacts.get_setdefault_absent _ _ _ E).
  - rewrite add_flag_meta by (exact V || exact R || discriminate).
    eexists. split; [reflexivity|].
    destruct self; unfold with_flags, Dict.mem; simpl.
    now rewrite DictFacts.get_set_same.
Qed.

Lemma C10_witness :
  flag_keys_ok Demo_after
  /\ add_flag (PStr ("  " ++ "late" ++ " ")) [] Demo.logger
     = add_flag (PStr "late") [] Demo.logger.
Proof.
  destruct (C10_flag_keys_are_trimmed_names
              Demo.world Demo.runtime Demo.sink_ok (Demo.seconds 100)
              "automation.config"
              None None None None None Demo_built Demo_after Demo_ops
              "  " "late" " " [] Demo.logger)
    as (_ & H & _ & E & _).
  - vm_compute. reflexivity.
  - vm_compute. reflexivity.
  - reflexivity.
  - reflexivity.
  - reflexivity.
  - split; [exact H | exact E].
Defined.

(** * Further properties of the code *)

(** ** Lemmas *)

Module MoreStrFacts.
Import PyStr.

Lemma is_space_lower_char c : is_space (lower_char c) = is_space c.
Proof. destruct c as [[] [] [] [] [] [] [] []]; reflexivity. Qed.

Lemma lower_char_idem c : lower_char (lower_char c) = lower_char c.
Proof. destruct c as [[] [] [] [] [] [] [] []]; reflexivity. Qed.

Lemma lower_idem s : lower (lower s) = lower s.
Proof. induction s as [|c s IH]; simpl; [reflexivity|]. now rewrite lower_char_idem, IH. Qed.

Lemma lstrip_lower s : lstrip (lower s) = lower (lstrip s).
Proof.
  induction s as [|c s IH]; simpl; [reflexivity|].
  rewrite is_space_lower_char. destruct (is_space c); [exact IH | reflexivity].
Qed.

Lemma rstrip_lower s : rstrip (lower s) = lower (rstrip s).
Proof.
  induction s as [|c s IH]; simpl; [reflexivity|].
  rewrite IH, is_space_lower_char.
  destruct (rstrip s); simpl; [now destruct (is_space c) | reflexivity].
Qed.

Lemma strip_lower_commute s : strip (lower s) = lower (strip s).
Proof. unfold strip. now rewrite lstrip_lower, rstrip_lower. Qed.

Lemma nonempty_strip_all_space s :
  nonempty (strip s) = negb (all_space s).
Proof.
  unfold strip, all_space.
  induction s as [|c s IH]; simpl; [reflexivity|].
  destruct (is_space c) eqn:E; simpl; [exact IH|].
  destruct (rstrip s); [now rewrite E | reflexivity].
Qed.

Lemma strip_all_space s : all_space s = true -> strip s = "".
Proof.
  intros H. pose proof (nonempty_strip_all_space s) as N. rewrite H in N.
  now destruct (strip s).
Qed.

Lemma decimal_value_nonneg s : forall acc, (0 <= acc)%Z -> (0 <= decimal_value acc s)%Z.
Proof.
  induction s as [|c s IH]; cbn [decimal_value]; intros acc H; [exact H|].
  apply IH. pose proof (N2Z.is_nonneg (code c - 48)). lia.
Qed.

End MoreStrFacts.

Lemma get_map_values (f : pyval -> pyval) k (e : py_dict) :
  Dict.get k (map (fun kv => (fst kv, f (snd kv))) e)
  = option_map f (Dict.get k e).
Proof.
  induction e as [|[k' v'] e IH]; simpl; [reflexivity|].
  destruct (String.eqb k k'); [reflexivity | exact IH].
Qed.

Lemma keys_map_values (f : pyval -> pyval) (e : py_dict) :
  Dict.keys (map (fun kv => (fst kv, f (snd kv))) e) = Dict.keys e.
Proof.
  unfold Dict.keys. rewrite map_map. reflexivity.
Qed.

(** Setting a key keeps the keys, or adds the new one at the end. *)
Lemma keys_set_eq k v d :
  Dict.keys (Dict.set k v d)
  = if Dict.mem k d then Dict.keys d else (Dict.keys d ++ [k])%list.
Proof.
  unfold Dict.mem. induction d as [|[k' v'] d IH]; simpl; [reflexivity|].
  destruct (String.eqb k k') eqn:E; simpl; [reflexivity|].
  rewrite IH. now destruct (Dict.get k d).
Qed.

Lemma wf_set k v d : Dict.wf d -> Dict.wf (Dict.set k v d).
Proof.
  unfold Dict.wf. intros W. rewrite keys_set_eq.
  destruct (Dict.mem k d) eqn:M; [exact W|].
  apply NoDup_app; [exact W | repeat constructor; intros [] |].
  intros x I [E|[]]. subst x. unfold Dict.mem in M.
  destruct (Dict.get k d) eqn:G; [discriminate|].
  now apply DictFacts.get_none_iff in G.
Qed.

Lemma wf_update_with f e : forall d, Dict.wf d -> Dict.wf (Dict.update_with f e d).
Proof.
  unfold Dict.update_with.
  induction e as [|[k v] e IH]; simpl; intros d W; [exact W|].
  apply IH. now apply wf_set.
Qed.

Lemma forallb_get (P : pyval -> bool) k v (d : py_dict) :
  forallb (fun kv => P (snd kv)) d = true -> Dict.get k d = Some v -> P v = true.
Proof.
  induction d as [|[k' v'] d IH]; simpl; [discriminate|].
  intros H. apply andb_true_iff in H as [H1 H2].
  destruct (String.eqb k k'); [now intros [= <-] | now apply IH].
Qed.

Lemma forallb_update_with (P : pyval -> bool) f e : forall d,
  forallb (fun kv => P (snd kv)) d = true ->
  forallb (fun kv => P (f (snd kv))) e = true ->
  forallb (fun kv => P (snd kv)) (Dict.update_with f e d) = true.
Proof.
  unfold Dict.update_with.
  induction e as [|[k v] e IH]; simpl; intros d Hd He; [exact Hd|].
  apply andb_true_iff in He as [H1 H2].
  apply IH; [|exact H2]. now apply forallb_set.
Qed.

(** ** Output *)

(** X2.  [set_output] replaces the output: whatever it held before, it
    then holds the keys of the payload, in order, each with its normalized
    value; the flags, the context and the success mark are left alone. *)
Theorem X2_set_output_replaces :
  forall (payload : py_dict) (self : AutomationRunLogger) (k : string),
    Dict.wf payload ->
    Dict.get k (output (set_output payload self))
    = option_map jsonable (Dict.get k payload)
    /\ Dict.keys (output (set_output payload self)) = Dict.keys payload
    /\ flags (set_output payload self) = flags self
    /\ context (set_output payload self) = context self
    /\ _success (set_output payload self) = _success self.
Proof.
  intros payload self k W.
  assert (E : output (set_output payload self)
              = map (fun kv => (fst kv, jsonable (snd kv))) payload).
  { destruct self; simpl.
    now rewrite DictFacts.update_with_fresh by (exact W || reflexivity). }
  rewrite E, get_map_values, keys_map_values.
  now destruct self.
Qed.

Lemma X2_witness :
  let s := set_output [("rows", PInt 10); ("at", PDatetime (mk_datetime "2024-05-01T10:00:00" None))]
             (add_output "old" (PInt 1) Demo.logger) in
  Dict.get "at" (output s) = Some (PStr "2024-05-01T10:00:00+00:00")
  /\ Dict.keys (output s) = ["rows"; "at"].
Proof.
  intros s.
  destruct (X2_set_output_replaces
              [("rows", PInt 10); ("at", PDatetime (mk_datetime "2024-05-01T10:00:00" None))]
              (add_output "old" (PInt 1) Demo.logger) "at")
    as (G & K & _).
  - unfold Dict.wf. simpl. repeat constructor; simpl; intuition discriminate.
  - split; [exact G | exact K].
Defined.

(** X3.  [add_output] writes one key: reading it back gives the normalized
    value, every other key reads as before, a key already there keeps its
    place and a new one goes last, and the flags, the context and the
    success mark are left alone. *)
Theorem X3_add_output_upserts :
  forall (key : string) (value : pyval) (self : AutomationRunLogger)
         (k : string),
    let self' := add_output key value self in
    Dict.get key (output self') = Some (jsonable value)
    /\ (k <> key -> Dict.get k (output self') = Dict.get k (output self))
    /\ Dict.keys (output self')
       = (if Dict.mem key (output self) then Dict.keys (output self)
          else (Dict.keys (output self) ++ [key])%list)
    /\ (Dict.wf (output self) -> Dict.wf (output self'))
    /\ flags self' = flags self
    /\ context self' = context self
    /\ _success self' = _success self.
Proof.
  intros key value self k self'. subst self'. destruct self; simpl.
  split; [apply DictFacts.get_set_same|].
  split; [intros N; now apply DictFacts.get_set_other|].
  split; [apply keys_set_eq|].
  split; [apply wf_set|]. repeat split.
Qed.

Lemma X3_witness :
  let s := add_output "rows" (PInt 12)
             (add_output "note" (PStr "ok") (add_output "rows" (PInt 3) Demo.logger)) in
  output s = [("rows", PInt 12); ("note", PStr "ok")]
  /\ Dict.get "note" (output s) = Some (PStr "ok").
Proof.
  intros s. split; [reflexivity|].
  destruct (X3_add_output_upserts "rows" (PInt 12)
              (add_output "note" (PStr "ok") (add_output "rows" (PInt 3) Demo.logger))
              "note") as (_ & O & _).
  unfold s. rewrite (O ltac:(discriminate)). reflexivity.
Defined.

(** ** What the operations keep *)

Lemma run_op_success rt sink o self self' :
  run_op rt sink o self = Ok self' ->
  (_success self = false -> _success self' = false)
  /\ (quiet_op o = true -> _success self' = _success self).
Proof.
  destruct o.
  - intros [= <-]. now destruct self.
  - intros [= <-]. now destruct self.
  - intros [= <-]. destruct self; simpl. split; [reflexivity | discriminate].
  - intros E. rewrite (add_flag_only_flags _ _ _ _ E). now destruct self.
  - intros [= <-]. now destruct self.
  - intros E. rewrite (run_op_exit_inv _ _ _ _ _ _ _ E).
    destruct (note_exception_frame exc self)
      as (_ & _ & _ & _ & _ & _ & _ & _ & ->).
    destruct exc; simpl; split; (reflexivity || discriminate || tauto).
Qed.

Lemma run_op_frame rt sink o self self' :
  run_op rt sink o self = Ok self' ->
  automation_id self' = automation_id self
  /\ schema_name self' = schema_name self
  /\ table_name self' = table_name self
  /\ script_path self' = script_path self
  /\ context self' = context self.
Proof.
  destruct o.
  - intros [= <-]. now destruct self.
  - intros [= <-]. now destruct self.
  - intros [= <-]. now destruct self.
  - intros E. rewrite (add_flag_only_flags _ _ _ _ E). now destruct self.
  - intros [= <-]. now destruct self.
  - intros E. rewrite (run_op_exit_inv _ _ _ _ _ _ _ E).
    destruct (note_exception_frame exc self)
      as (_ & C & _ & _ & A & S & T & P & _).
    now repeat split.
Qed.

(** X4.  The success mark never goes back to true: through any sequence of
    operations a logger that is marked failed stays marked failed, and only
    [mark_failure] and an [__exit__] that is handed an exception change the
    mark at all. *)
Theorem X4_success_never_reverts :
  forall (rt : Runtime) (sink : Sink) (os : list op)
         (self self' : AutomationRunLogger),
    run_ops rt sink os self = Ok self' ->
    (_success self = false -> _success self' = false)
    /\ (forallb quiet_op os = true -> _success self' = _success self).
Proof.
  intros rt sink os. induction os as [|o os IH]; simpl; intros self self' R.
  - injection R as <-. split; auto.
  - destruct (run_op rt sink o self) as [s1|e] eqn:E; simpl in R; [|discriminate].
    destruct (run_op_success _ _ _ _ _ E) as [F Q].
    destruct (IH _ _ R) as [F' Q']. split.
    + intros H. apply F'. now apply F.
    + intros H. apply andb_true_iff in H as [H1 H2].
      now rewrite (Q' H2), (Q H1).
Qed.

Lemma X4_witness :
  _success Demo_after = false
  /\ _success (mark_failure Demo_built) = false.
Proof.
  split; [|reflexivity].
  refine (proj1 (X4_success_never_reverts Demo.runtime Demo.sink_ok
                   [ SetOutput [("rows", PInt 10)];
                     Exit (Demo.seconds 160) Demo.midnight None ]
                   (mark_failure
                      (set_output [("rows", PInt 10)] Demo_after))
                   Demo_after _) _).
  - vm_compute. reflexivity.
  - reflexivity.
Defined.

(** X5.  The identity and the context are fixed at construction: no
    sequence of operations changes automation_id, schema_name, table_name,
    script_path or the context. *)
Theorem X5_identity_and_context_are_frozen :
  forall (rt : Runtime) (sink : Sink) (os : list op)
         (self self' : AutomationRunLogger),
    run_ops rt sink os self = Ok self' ->
    automation_id self' = automation_id self
    /\ schema_name self' = schema_name self
    /\ table_name self' = table_name self
    /\ script_path self' = script_path self
    /\ context self' = context self.
Proof.
  intros rt sink os. induction os as [|o os IH]; simpl; intros self self' R.
  - injection R as <-. repeat split.
  - destruct (run_op rt sink o self) as [s1|e] eqn:E; simpl in R; [|discriminate].
    destruct (run_op_frame _ _ _ _ _ E) as (A & B & C & D & F).
    destruct (IH _ _ R) as (A' & B' & C' & D' & F').
    repeat split; congruence.
Qed.

Lemma X5_witness :
  context Demo_after = context Demo_built
  /\ automation_id Demo_after = PInt 7.
Proof.
  destruct (X5_identity_and_context_are_frozen Demo.runtime Demo.sink_ok
              Demo_ops Demo_built Demo_after) as (A & _ & _ & _ & C).
  - vm_compute. reflexivity.
  - split; [exact C | rewrite A; reflexivity].
Defined.

(** ** Flags *)



(** ** The Run Record Builder *)

Lemma decimal_chars_are_digits t :
  PyStr.forall_chars PyStr.is_decimal t = true ->
  PyStr.forall_chars PyStr.is_digit_char t = true.
Proof.
  induction t as [|a t IH]; cbn [PyStr.forall_chars]; [reflexivity|].
  intros H. apply andb_true_iff in H as [H1 H2].
  rewrite (IH H2), andb_true_r.
  unfold PyStr.is_digit_char. now rewrite H1.
Qed.

Lemma decimal_is_digit s :
  PyStr.nonempty s = true -> PyStr.forall_chars PyStr.is_decimal s = true ->
  PyStr.isdigit s = true.
Proof.
  intros N H. unfold PyStr.isdigit. destruct s as [|c s]; [discriminate|].
  now apply decimal_chars_are_digits.
Qed.

Lemma isdigit_nonempty s : PyStr.isdigit s = true -> PyStr.nonempty s = true.
Proof. now destruct s. Qed.

(** [int] on a string of digits, by what it checks. *)
Lemma int_of_digits_cases w s :
  int_of_digits w s
  = if within_digit_limit w s then
      if PyStr.forall_chars PyStr.is_decimal s
      then Ok (PyStr.decimal_value 0 s)
      else Raise (invalid_literal_error s)
    else Raise (digit_limit_error (int_max_str_digits w)
                  (N.of_nat (String.length (PyStr.decimal_prefix s)))).
Proof.
  unfold int_of_digits, within_digit_limit. cbv zeta.
  now destruct (_ && _ && _)%bool.
Qed.

(** X8.  The environment supplies an id only as a string of digits: the id
    it gives is then the decimal value, never negative; a value with any
    other character (a sign, a space) is ignored, as is an unset variable.
    On a value that [isdigit] accepts the line raises in two cases, each
    time a ValueError: the value starts with more decimal digits than the
    interpreter converts, or, that not being so, it holds a digit that is
    not decimal. *)
Theorem X8_environment_id :
  forall (w : World) (s : string),
    (forall v, env_automation_id w = Ok v ->
       v = PNone \/ exists n, v = PInt n /\ 0 <= n)
    /\ (os_getenv w "AUTOMATION_ID" = None -> env_automation_id w = Ok PNone)
    /\ (os_getenv w "AUTOMATION_ID" = Some s -> PyStr.isdigit s = false ->
        env_automation_id w = Ok PNone)
    /\ (os_getenv w "AUTOMATION_ID" = Some s -> PyStr.nonempty s = true ->
        PyStr.forall_chars PyStr.is_decimal s = true ->
        within_digit_limit w s = true ->
        env_automation_id w = Ok (PInt (PyStr.decimal_value 0 s)))
    /\ (os_getenv w "AUTOMATION_ID" = Some s -> PyStr.isdigit s = true ->
        within_digit_limit w s = false ->
        env_automation_id w
        = Raise (digit_limit_error (int_max_str_digits w)
                   (N.of_nat (String.length (PyStr.decimal_prefix s)))))
    /\ (os_getenv w "AUTOMATION_ID" = Some s -> PyStr.isdigit s = true ->
        within_digit_limit w s = true ->
        PyStr.forall_chars PyStr.is_decimal s = false ->
        env_automation_id w = Raise (invalid_literal_error s))
    /\ (forall e, env_automation_id w = Raise e ->
          exc_class e = "ValueError" /\ exc_is_exception e = true).
Proof.
  intros w s. unfold env_automation_id.
  split; [|split; [|split; [|split; [|split; [|split]]]]].
  - intros v. destruct (os_getenv w "AUTOMATION_ID") as [t|];
      [|intros [= <-]; now left].
    destruct (PyStr.nonempty t && PyStr.isdigit t); [|intros [= <-]; now left].
    rewrite int_of_digits_cases.
    destruct (within_digit_limit w t); [|discriminate].
    destruct (PyStr.forall_chars PyStr.is_decimal t); cbn [bind];
      [|discriminate].
    intros [= <-]. right. eexists. split; [reflexivity|].
    now apply MoreStrFacts.decimal_value_nonneg.
  - now intros ->.
  - intros -> D. now rewrite D, andb_false_r.
  - intros -> N D L. rewrite N, (decimal_is_digit s N D), int_of_digits_cases.
    now rewrite L, D.
  - intros -> D L. rewrite (isdigit_nonempty s D), D, int_of_digits_cases.
    now rewrite L.
  - intros -> D L F. rewrite (isdigit_nonempty s D), D, int_of_digits_cases.
    now rewrite L, F.
  - intros e. destruct (os_getenv w "AUTOMATION_ID") as [t|]; [|discriminate].
    destruct (PyStr.nonempty t && PyStr.isdigit t); [|discriminate].
    rewrite int_of_digits_cases.
    destruct (within_digit_limit w t).
    + destruct (PyStr.forall_chars PyStr.is_decimal t); cbn [bind];
        [discriminate|].
      intros [= <-]. split; reflexivity.
    + cbn [bind]. intros [= <-]. split; reflexivity.
Qed.

Lemma X8_witness :
  env_automation_id Demo.world = Ok (PInt 42)
  /\ env_automation_id env_only_world = Ok PNone
  /\ env_automation_id superscript_world
     = Raise (ValueError
                ("invalid literal for int() with base 10: '"
                   ++ String (ascii_of_N 178) "'")).
Proof.
  split; [|split].
  - destruct (X8_environment_id Demo.world "42") as (_ & _ & _ & D & _).
    exact (D eq_refl eq_refl eq_refl eq_refl).
  - destruct (X8_environment_id env_only_world "from_env") as (_ & _ & I & _).
    exact (I eq_refl eq_refl).
  - destruct (X8_environment_id superscript_world
                (String (ascii_of_N 178) EmptyString))
      as (_ & _ & _ & _ & _ & L & _).
    exact (L eq_refl eq_refl eq_refl eq_refl).
Defined.

(** The interpreter's limit, on a value of 4301 digits. *)
Example digit_limit_in_environment :
  int_of_digits Demo.world (Demo.ones 4300)
  = Ok (PyStr.decimal_value 0 (Demo.ones 4300))
  /\ int_of_digits Demo.world (Demo.ones 4301)
     = Raise (ValueError
                "Exceeds the limit (4300 digits) for integer string conversion: value has 4301 digits; use sys.set_int_max_str_digits() to increase the limit").
Proof. split; vm_compute; reflexivity. Qed.

(** X9.  [from_config] fails in this order: what reading the config file
    raises; AttributeError when the file decodes to something that is not a
    mapping; what the environment line raises; the missing-id ValueError,
    before any path is looked up; what the Entry-Point Resolver raises;
    AttributeError when the path mode chosen is not a string; what the Path
    Resolver raises; what [os.getcwd] raises; what the host lookup raises.
    A config file that does not exist counts as an empty mapping.  It
    returns a logger exactly when the config is a mapping, an id is present
    and each of these steps returns. *)
Theorem X9_from_config_failures :
  forall (w : World) (now : float) (config_path : string) (id : option Z)
         (sn tn sp pm : option string),
    let built := from_config w now config_path id sn tn sp pm in
    let cfg := load_automation_config w config_path in
    (os_path_exists w config_path = false -> cfg = Ok (PDict []))
    /\ (forall e, cfg = Raise e -> built = Raise e)
    /\ (forall v, cfg = Ok v -> (forall d, v <> PDict d) ->
        built = Raise (no_attribute v "get"))
    /\ (forall d e, cfg = Ok (PDict d) -> env_automation_id w = Raise e ->
        built = Raise e)
    /\ (forall d env_id, cfg = Ok (PDict d) -> env_automation_id w = Ok env_id ->
        first_present
          [of_opt_int id; Dict.get_or_none "automation_id" d; env_id] = PNone ->
        built = Raise missing_id_error)
    /\ (forall d env_id, cfg = Ok (PDict d) -> env_automation_id w = Ok env_id ->
        first_present
          [of_opt_int id; Dict.get_or_none "automation_id" d; env_id] <> PNone ->
        (forall e, resolve_entry_script_path w sp = Raise e -> built = Raise e)
        /\ (forall entry, resolve_entry_script_path w sp = Ok entry ->
            (forall e, requested_path_mode (PDict d) pm = Raise e ->
               built = Raise e
               /\ exists v, e = no_attribute v "strip" /\ forall s, v <> PStr s)
            /\ (forall mode, requested_path_mode (PDict d) pm = Ok mode ->
                (forall e,
                   resolve_path w (recorded_mode mode entry) entry = Raise e ->
                   built = Raise e)
                /\ (forall resolved,
                      resolve_path w (recorded_mode mode entry) entry
                      = Ok resolved ->
                      (forall e, os_getcwd w = Raise e -> built = Raise e)
                      /\ (forall cwd e, os_getcwd w = Ok cwd ->
                            get_host_context w = Raise e -> built = Raise e)))))
    /\ ((exists lg, built = Ok lg) <->
        (exists d env_id mode entry resolved cwd host,
           cfg = Ok (PDict d) /\ env_automation_id w = Ok env_id
           /\ first_present
                [of_opt_int id; Dict.get_or_none "automation_id" d; env_id]
              <> PNone
           /\ resolve_entry_script_path w sp = Ok entry
           /\ requested_path_mode (PDict d) pm = Ok mode
           /\ resolve_path w (recorded_mode mode entry) entry = Ok resolved
           /\ os_getcwd w = Ok cwd
           /\ get_host_context w = Ok host)).
Proof.
  intros w now cp id sn tn sp pm built cfg. subst built cfg.
  split; [|split; [|split; [|split; [|split; [|split]]]]].
  - unfold load_automation_config. now intros ->.
  - intros e L. unfold from_config. now rewrite L.
  - intros v L N. unfold from_config. rewrite L. cbn [bind].
    destruct v; try reflexivity. now destruct (N d).
  - intros d e L E. unfold from_config. rewrite L. cbn [bind cfg_get].
    now rewrite E.
  - intros d env_id L E F. now apply (from_config_missing_id _ _ _ _ _ _ _ _ d env_id).
  - intros d env_id L E F.
    rewrite (from_config_after_id _ _ _ _ _ _ _ _ _ _ L E F). split.
    + now intros e ->.
    + intros entry ->. cbn [bind]. split.
      * intros e M. rewrite M. split; [reflexivity|].
        unfold requested_path_mode in M. cbn [bind cfg_get] in M.
        unfold strip_lower in M.
        destruct (py_or _ _) as [| | | |s| | | |] eqn:V; try discriminate;
          injection M as <-; eexists; (split; [reflexivity | discriminate]).
      * intros mode ->. cbn [bind]. split; [now intros e ->|].
        intros resolved ->. cbn [bind]. split; [now intros e ->|].
        intros cwd e -> ->. reflexivity.
  - split.
    + intros [lg B].
      destruct (from_config_ok_inv _ _ _ _ _ _ _ _ _ B)
        as (d & env_id & mode & entry & resolved & cwd & host
            & L & E & F & Hr & Hm & Hp & Hc & Hh & _).
      exists d, env_id, mode, entry, resolved, cwd, host. now repeat split.
    + intros (d & env_id & mode & entry & resolved & cwd & host
              & L & E & F & Hr & Hm & Hp & Hc & Hh).
      eexists. now apply (from_config_returns w now cp id sn tn sp pm
                            d env_id mode entry resolved cwd host).
Qed.

Lemma X9_witness :
  from_config odd_world (Demo.seconds 100) "automation.config"
    (Some 7) None None None None
  = Raise (AttributeError "'list' object has no attribute 'get'")
  /\ from_config env_only_world (Demo.seconds 100) "automation.config"
       None None None None (Some "cwd")
     = Raise missing_id_error
  /\ from_config removed_cwd_world (Demo.seconds 100) "automation.config"
       None None None (Some "/srv/jobs/nightly.py") (Some "cwd")
     = Raise no_such_directory.
Proof.
  split; [|split].
  - destruct (X9_from_config_failures odd_world (Demo.seconds 100)
                "automation.config" (Some 7) None None None None)
      as (_ & _ & A & _).
    apply (A (PList [PInt 7])); [reflexivity | discriminate].
  - destruct (X9_from_config_failures env_only_world (Demo.seconds 100)
                "automation.config" None None None None (Some "cwd"))
      as (_ & _ & _ & _ & M & _).
    apply (M [] PNone); reflexivity.
  - destruct (X9_from_config_failures removed_cwd_world (Demo.seconds 100)
                "automation.config" None None None
                (Some "/srv/jobs/nightly.py") (Some "cwd"))
      as (_ & _ & _ & _ & _ & P & _).
    destruct (P [ ("automation_id", PInt 7); ("schema_name", PStr "warehouse") ]
                (PInt 42) eq_refl eq_refl ltac:(discriminate)) as (_ & Q).
    destruct (Q (Some "/srv/jobs/nightly.py") eq_refl) as (_ & M).
    destruct (M "cwd" eq_refl) as (R & _).
    apply R. reflexivity.
Defined.

(** X10.  A logger [from_config] returns starts empty and unmarked: no
    output, no flags, success true, no run time yet, and the entry script it
    resolved as script_path.  Its context holds config_path, path_mode, cwd
    and resolved_path, then entry_script_path and entry_script_dir when an
    entry script was found and only then, then the six host facts; no key
    occurs twice, and every value is a string or None.  A host name that
    does not resolve leaves host_ip None and nothing else changed. *)
Theorem X10_from_config_fresh_logger :
  forall (w : World) (now : float) (config_path : string) (id : option Z)
         (sn tn sp pm : option string) (lg : AutomationRunLogger),
    from_config w now config_path id sn tn sp pm = Ok lg ->
    output lg = [] /\ flags lg = [] /\ _success lg = true
    /\ _run_time lg = None /\ _t0 lg = now
    /\ resolve_entry_script_path w sp = Ok (script_path lg)
    /\ Dict.keys (context lg)
       = (path_keys (script_path lg) ++ host_keys)%list
    /\ Dict.wf (context lg)
    /\ forallb (fun kv => is_primitive (snd kv)) (context lg) = true
    /\ exists host_name,
         socket_gethostname w = Ok host_name
         /\ Dict.get "host_ip" (context lg)
            = Some (match socket_gethostbyname w host_name with
                    | Ok ip => PStr ip
                    | Raise _ => PNone
                    end).
Proof.
  intros w now cp id sn tn sp pm lg B.
  destruct (from_config_ok_inv _ _ _ _ _ _ _ _ _ B)
    as (cfg & env_id & mode & entry & resolved & cwd & host
        & _ & _ & _ & Hr & _ & _ & _ & Hh & ->).
  destruct (get_host_context_ok _ _ Hh) as (hn & fq & pf & Hn & _ & _ & ->).
  unfold built_logger, with_context, new_logger, path_entries, path_keys.
  cbn [output flags _success _run_time _t0 script_path context].
  repeat (split; [reflexivity || assumption|]).
  destruct entry as [p|];
    [simpl of_opt_str; cbn [truthy]; destruct (PyStr.nonempty p)|].
  all: split; [reflexivity|].
  all: split;
       [unfold Dict.wf; simpl; repeat constructor; simpl; intuition discriminate|].
  all: split;
       [simpl; destruct (os_getenv w "COMPUTERNAME"),
                        (socket_gethostbyname w hn); reflexivity|].
  all: exists hn; split; [exact Hn | reflexivity].
Qed.

Lemma X10_witness :
  flags Demo_odd_built = []
  /\ Dict.get "host_ip" (context Demo_odd_built) = Some PNone
  /\ Dict.keys (context Demo_odd_built)
     = [ "config_path"; "path_mode"; "cwd"; "resolved_path";
         "entry_script_path"; "entry_script_dir";
         "host_name"; "computername"; "fqdn"; "host_ip"; "platform"; "python" ].
Proof.
  destruct (X10_from_config_fresh_logger odd_world (Demo.seconds 100)
              "absent.config" (Some 7) None None None None Demo_odd_built)
    as (_ & F & _ & _ & _ & _ & K & _ & _ & hn & Hn & H).
  - vm_compute. reflexivity.
  - split; [exact F|]. split; [|exact K].
    injection Hn as <-. exact H.
Defined.

(** ** The Path Resolver and the Entry-Point Resolver *)

Lemma resolve_path_unfold w m sp :
  resolve_path w m sp
  = if String.eqb (PyStr.lower (PyStr.strip m)) "script"
       && truthy (of_opt_str sp)
    then p <- os_path_abspath w (match sp with Some p => p | None => "" end) ;;
         Ok (os_path_dirname w p)
    else os_getcwd w.
Proof.
  unfold resolve_path. destruct m as [|c m]; reflexivity.
Qed.

(** X11.  [resolve_path] reads its mode without regard to case or to
    whitespace around it: two modes that differ only so resolve alike.  It
    answers with the directory of the script when the mode so read is
    "script" and a non-empty script path is given, and with the current
    working directory in every other case: an empty or blank mode, "cwd", an
    unknown word, or "script" without a script path. *)
Theorem X11_resolve_path_reads_mode_loosely :
  forall (w : World) (a b l r : string) (sp : option string),
    PyStr.all_space l = true -> PyStr.all_space r = true ->
    PyStr.lower a = PyStr.lower b ->
    resolve_path w (l ++ a ++ r) sp = resolve_path w b sp
    /\ resolve_path w a sp
       = (if String.eqb (PyStr.lower (PyStr.strip a)) "script"
             && truthy (of_opt_str sp)
          then p <- os_path_abspath w
                      (match sp with Some p => p | None => "" end) ;;
               Ok (os_path_dirname w p)
          else os_getcwd w)
    /\ (PyStr.all_space a = true -> resolve_path w a sp = os_getcwd w)
    /\ resolve_path w a None = os_getcwd w.
Proof.
  intros w a b l r sp Hl Hr E.
  rewrite !resolve_path_unfold. split; [|split; [reflexivity|split]].
  - rewrite PyStrFacts.strip_surrounded by assumption.
    rewrite <- !MoreStrFacts.strip_lower_commute. now rewrite E.
  - intros A. now rewrite (MoreStrFacts.strip_all_space a A).
  - now rewrite andb_false_r.
Qed.

Lemma X11_witness :
  resolve_path Demo.world "  SCRIPT " (Some "/srv/jobs/nightly.py")
  = resolve_path Demo.world "Script" (Some "/srv/jobs/nightly.py")
  /\ resolve_path Demo.world "Script" (Some "/srv/jobs/nightly.py")
     = Ok "/srv/jobs".
Proof.
  split; [|reflexivity].
  exact (proj1 (X11_resolve_path_reads_mode_loosely Demo.world
                  "SCRIPT" "Script" "  " " " (Some "/srv/jobs/nightly.py")
                  eq_refl eq_refl eq_refl)).
Defined.

(** X12.  The frames of the call stack never reach the result of
    [resolve_entry_script_path]: the module does not bind [inspect], the
    stack block raises before it looks at a frame, and its handler drops the
    error.  So whatever the stack holds the answer is the same, and with no
    override, no main-module file and no usable first argument the answer
    is nothing. *)
Theorem X12_stack_frames_are_never_used :
  forall (w : World) (frames : list string) (explicit : option string),
    resolve_entry_script_path (with_stack frames w) explicit
    = resolve_entry_script_path w explicit
    /\ (truthy (of_opt_str explicit) = false ->
        guarded (signal_main w) = Ok None -> signal_argv w = Ok None ->
        resolve_entry_script_path (with_stack frames w) explicit = Ok None).
Proof.
  intros w frames explicit.
  assert (E : resolve_entry_script_path (with_stack frames w) explicit
              = resolve_entry_script_path w explicit) by reflexivity.
  split; [exact E|].
  intros X M A. rewrite E, resolve_entry_script_path_unfold, X, M.
  cbn [bind]. now rewrite A.
Qed.

Lemma X12_witness :
  resolve_entry_script_path
    (with_stack ["/srv/jobs/nightly.py"] Demo.shell_world) None = Ok None.
Proof.
  exact (proj2 (X12_stack_frames_are_never_used Demo.shell_world
                  ["/srv/jobs/nightly.py"] None) eq_refl eq_refl eq_refl).
Defined.

(** ** Finalization *)

(** X13.  The row handed to the sink is stamped with the run time taken at
    [__enter__], not with the time of the exit; only a logger that was never
    entered gets the time of the exit.  It names the logger's table and id,
    carries its context and flags as they are, and its success field is false
    when an exception left the body and the logger's mark otherwise. *)
Theorem X13_row_carries_entry_time_and_identity :
  forall (rt : Runtime) (sink : Sink) (t_enter : float) (utc_enter : datetime)
         (t_exit : float) (utc_exit : datetime) (body : Body)
         (logger lg : AutomationRunLogger) (exc : option exc_info)
         (c : insert_call),
    body (__enter__ t_enter utc_enter logger) = (lg, exc) ->
    In c (sink_calls
            (trace (with_statement rt sink t_enter utc_enter t_exit utc_exit
                      body logger))) ->
    (_run_time lg = Some utc_enter -> ins_run_time c = utc_enter)
    /\ (_run_time lg = None -> ins_run_time c = utc_exit)
    /\ ins_automation_id c = automation_id lg
    /\ ins_schema c = schema_name lg
    /\ ins_table c = table_name lg
    /\ ins_context c = PDict (context lg)
    /\ ins_flags c = PDict (flags lg)
    /\ ins_success c = match exc with Some _ => false | None => _success lg end.
Proof.
  intros rt sink t_enter utc_enter t_exit utc_exit body logger lg exc c B I.
  rewrite (with_statement_unfold _ _ _ _ _ _ _ _ _ _ B) in I.
  cbv zeta in I. cbn [trace] in I.
  destruct (exit_calls _ _ _ _ _ _ _ I) as (d & _ & _ & _ & -> & _).
  destruct (note_exception_frame exc lg)
    as (F & C & _ & _ & A & S & T & _ & M).
  unfold row_of, run_time_of.
  cbn [ins_run_time ins_automation_id ins_schema ins_table ins_context
       ins_flags ins_success].
  rewrite F, C, A, S, T, M.
  repeat split; now intros ->.
Qed.

Lemma X13_witness :
  let o := with_statement Demo.runtime Demo.sink_ok (Demo.seconds 100)
             (mk_datetime "2024-05-01T00:00:00" (Some utc_offset))
             (Demo.seconds 160)
             (mk_datetime "2024-05-01T00:01:00" (Some utc_offset))
             (fun s => (s, None)) Demo_built in
  map ins_run_time (sink_calls (trace o))
  = [mk_datetime "2024-05-01T00:00:00" (Some utc_offset)].
Proof.
  intros o.
  assert (E : exists c, sink_calls (trace o) = [c])
    by (eexists; vm_compute; reflexivity).
  destruct E as [c E]. rewrite E. simpl. f_equal.
  refine (proj1 (X13_row_carries_entry_time_and_identity
                   Demo.runtime Demo.sink_ok (Demo.seconds 100)
                   (mk_datetime "2024-05-01T00:00:00" (Some utc_offset))
                   (Demo.seconds 160)
                   (mk_datetime "2024-05-01T00:01:00" (Some utc_offset))
                   (fun s => (s, None)) Demo_built
                   (__enter__ (Demo.seconds 100)
                      (mk_datetime "2024-05-01T00:00:00" (Some utc_offset))
                      Demo_built)
                   None c eq_refl _) eq_refl).
  fold o. rewrite E. now left.
Defined.

(** X14.  One [__exit__] hands the sink one row or none, and returns
    nothing but False.  When the elapsed time cannot be turned into an
    integer it raises that error with the logger untouched; when [str] of
    the exception raises it raises that, with nothing written.  Otherwise
    the sink gets the row exactly when [json.dumps] returns on output,
    context and flags.  A failure of the encoder or of the sink that is not
    an instance of Exception leaves [__exit__] as it is, unprinted; one that
    is, and whose report can be printed, is printed, and [__exit__] returns
    False; with no failure nothing is printed. *)
Theorem X14_exit_writes_one_row_or_none :
  forall (rt : Runtime) (sink : Sink) (now : float) (utcnow : datetime)
         (exc : option exc_info) (self : AutomationRunLogger),
    let x := __exit__ rt sink now utcnow exc self in
    let after := after_failure exc self in
    (length (sink_calls (exit_effects x)) <= 1)%nat
    /\ (forall b, exit_result x = Ok b -> b = false)
    /\ (forall e, duration_between (_t0 self) now = Raise e ->
          x = mk_exit self no_effects (Raise e))
    /\ (forall d e, duration_between (_t0 self) now = Ok d ->
          snd (note_exception exc self) = Raise e ->
          x = mk_exit after no_effects (Raise e))
    /\ (forall d, duration_between (_t0 self) now = Ok d ->
          snd (note_exception exc self) = Ok tt ->
          let row := row_of after (_success after) (run_time_of self utcnow) d in
          let failure :=
            match first_refusal rt after with
            | Some e => Some e
            | None => sink row
            end in
          exit_logger x = after
          /\ sink_calls (exit_effects x)
             = (if documents_encode rt after then [row] else [])
          /\ (failure = None -> x = mk_exit after (mk_effects [row] []) (Ok false))
          /\ (forall e, failure = Some e -> exc_is_exception e = false ->
                exit_result x = Raise e /\ printed (exit_effects x) = [])
          /\ (forall e text, failure = Some e -> exc_is_exception e = true ->
                py_str e = Ok text ->
                print_raises rt (failure_line text) = None ->
                exit_result x = Ok false
                /\ printed (exit_effects x) = [failure_line text])).
Proof.
  intros rt sink now utcnow exc self x after. subst x after.
  split; [|split; [|split; [|split]]].
  - destruct (exit_cases rt sink now utcnow exc self)
      as [(e & D & E)|[(d & e & D & N & E)|(d & D & N & E)]];
      rewrite E; [cbn; lia | cbn; lia |].
    cbv zeta. destruct (first_refusal rt _); rewrite finish_calls; cbn; lia.
  - intros b. apply exit_returns_false.
  - intros e. apply exit_no_duration.
  - intros d e. apply exit_no_message.
  - intros d D N. cbv zeta. rewrite (exit_unfold _ _ _ _ _ _ _ D N). cbv zeta.
    pose proof (first_refusal_none rt (after_failure exc self)) as Q.
    destruct (first_refusal rt (after_failure exc self)) as [e0|] eqn:F.
    + assert (documents_encode rt (after_failure exc self) = false) as ->.
      { destruct (documents_encode rt _); [|reflexivity].
        pose proof (proj2 Q eq_refl). discriminate. }
      rewrite finish_logger, finish_calls.
      split; [reflexivity|]. split; [reflexivity|]. split; [discriminate|].
      unfold finish, report_failure. split.
      * intros e [= <-] H. now rewrite H.
      * intros e text [= <-] H T P. rewrite H, T.
        fold (failure_line text). now rewrite P.
    + rewrite (proj1 Q eq_refl), finish_logger, finish_calls.
      split; [reflexivity|]. split; [reflexivity|].
      unfold finish, report_failure. split; [now intros ->|]. split.
      * intros e -> H. now rewrite H.
      * intros e text -> H T P. rewrite H, T.
        fold (failure_line text). now rewrite P.
Qed.

Lemma X14_witness :
  let self := add_output "seen" (PList [PDatetime Demo.midnight]) Demo_built in
  let x := __exit__ Demo.runtime Demo.sink_ok (Demo.seconds 160) Demo.midnight
             None self in
  sink_calls (exit_effects x) = []
  /\ exit_result x = Ok false
  /\ printed (exit_effects x)
     = ["[AutomationRunLogger] Failed to log run: Object of type datetime is not JSON serializable"].
Proof.
  intros self x.
  destruct (X14_exit_writes_one_row_or_none Demo.runtime Demo.sink_ok
              (Demo.seconds 160) Demo.midnight None self)
    as (_ & _ & _ & _ & U).
  destruct (U 60000) as (_ & C & _ & _ & P).
  - vm_compute. reflexivity.
  - reflexivity.
  - split; [exact C|].
    apply (P (TypeError "Object of type datetime is not JSON serializable")
             "Object of type datetime is not JSON serializable");
      reflexivity.
Defined.

(** X15.  Finalization keeps what the run accumulated: an [__exit__] that
    returns leaves the flags, the context and the start time as they were,
    changes no output key other than "error", which it sets once without
    duplicating it, and with no exception it leaves the whole logger as it
    was. *)
Theorem X15_exit_keeps_accumulated_state :
  forall (rt : Runtime) (sink : Sink) (now : float) (utcnow : datetime)
         (exc : option exc_info) (self : AutomationRunLogger)
         (b : bool) (k : string),
    let x := __exit__ rt sink now utcnow exc self in
    exit_result x = Ok b ->
    b = false
    /\ flags (exit_logger x) = flags self
    /\ context (exit_logger x) = context self
    /\ _t0 (exit_logger x) = _t0 self
    /\ _run_time (exit_logger x) = _run_time self
    /\ (k <> "error" ->
        Dict.get k (output (exit_logger x)) = Dict.get k (output self))
    /\ (Dict.wf (output self) -> Dict.wf (output (exit_logger x)))
    /\ (exc = None -> exit_logger x = self).
Proof.
  intros rt sink now utcnow exc self b k x R. subst x.
  split; [exact (exit_returns_false _ _ _ _ _ _ _ R)|].
  destruct (exit_returns_noted _ _ _ _ _ _ _ R) as [[d D] N].
  rewrite exit_logger_eq, D.
  destruct (note_exception_frame exc self) as (F & C & T & U & _).
  repeat (split; [assumption|]).
  unfold after_failure, note_exception in *.
  destruct exc as [ei|]; [|repeat split; trivial].
  destruct (py_str (ei_exc ei)) as [message|]; [|discriminate].
  destruct self; cbn [fst output with_output with_success] in *.
  repeat split; try discriminate.
  - intros Nk. rewrite DictFacts.get_set_other by exact Nk.
    unfold Dict.setdefault. destruct (Dict.mem "error" output0); [reflexivity|].
    now apply DictFacts.get_set_other.
  - intros W. apply wf_set. unfold Dict.setdefault.
    destruct (Dict.mem "error" output0); [exact W | now apply wf_set].
Qed.

Lemma X15_witness :
  let self := add_output "error" (PStr "stale")
                (add_output "rows" (PInt 3) Demo_built) in
  let x := __exit__ Demo.runtime Demo.sink_ok (Demo.seconds 160) Demo.midnight
             (Some Demo.boom) self in
  Dict.get "rows" (output (exit_logger x)) = Some (PInt 3)
  /\ Dict.keys (output (exit_logger x)) = ["rows"; "error"].
Proof.
  intros self x. split; [|reflexivity].
  destruct (X15_exit_keeps_accumulated_state Demo.runtime Demo.sink_ok
              (Demo.seconds 160) Demo.midnight (Some Demo.boom) self
              false "rows" eq_refl)
    as (_ & _ & _ & _ & _ & O & _).
  fold x in O. rewrite (O ltac:(discriminate)). reflexivity.
Defined.

(** ** The duration *)

(** X17.  A scope that exits at the clock reading it entered with reports
    a duration of 0; with a reading that is an infinity or NaN the
    subtraction gives NaN and [int] raises ValueError. *)
Theorem X17_duration_of_no_elapsed_time :
  forall t : float,
    duration_between t t
    = if float_is_finite t then Ok 0
      else Raise (ValueError "cannot convert float NaN to integer").
Proof.
  intros t. unfold duration_between, float_sub, float_mul.
  change (float_of_int 1000) with (S754_finite false 8796093022208000 (-43)).
  destruct t as [[|]|[|]| |s m e]; try reflexivity.
  cbn [SFsub float_is_finite].
  assert (Z : cond_Zopp s (Zpos (fst (shl_align m e (Z.min e e))))
              - cond_Zopp s (Zpos (fst (shl_align m e (Z.min e e)))) = 0)
    by lia.
  rewrite Z. reflexivity.
Qed.

(** ** Normalized state *)

Lemma jsonable_shape v : is_json_shape (jsonable v) = true.
Proof. now destruct v. Qed.

Lemma forallb_const_true (P : pyval -> bool) (f : pyval -> pyval) (e : py_dict) :
  (forall v, P (f v) = true) ->
  forallb (fun kv => P (f (snd kv))) e = true.
Proof.
  intros H. induction e as [|[k v] e IH]; simpl; [reflexivity|].
  now rewrite H, IH.
Qed.

Lemma starting_map_shape (d : py_dict) k :
  forallb (fun kv => is_flag_entry (snd kv)) d = true ->
  forallb (fun kv => is_json_shape (snd kv))
    (starting_map (Dict.get_or_none k d)) = true
  /\ is_other_entry (Dict.get_or_none k d) = false.
Proof.
  intros H. unfold Dict.get_or_none.
  destruct (Dict.get k d) as [v|] eqn:G; [|split; reflexivity].
  pose proof (forallb_get is_flag_entry k v d H G) as F.
  destruct v as [|[|]| | | | | | |]; simpl in *;
    try discriminate; split; try reflexivity; exact F.
Qed.

Lemma add_flag_normalized name meta self self' :
  normalized self -> add_flag name meta self = Ok self' -> normalized self'.
Proof.
  intros (No & Nf & Wo & Wf) A.
  assert (Fr : output self' = output self).
  { rewrite (add_flag_only_flags _ _ _ _ A). now destruct self. }
  unfold normalized. rewrite Fr. split; [exact No|].
  destruct (add_flag_ok_inv _ _ _ _ A) as (R & x & -> & V).
  destruct meta as [|m meta].
  - rewrite add_flag_bare in A by exact V. injection A as <-.
    destruct self; cbn [flags with_flags output] in *. unfold Dict.setdefault.
    destruct (Dict.mem _ _); [now repeat split|].
    split; [now apply forallb_set|]. split; [exact Wo | now apply wf_set].
  - rewrite add_flag_meta in A by (exact V || exact R || discriminate).
    injection A as <-.
    destruct self; cbn [flags with_flags output] in *.
    split; [|split; [exact Wo | now apply wf_set]].
    apply forallb_set; [exact Nf|]. intros k'. cbn [snd is_flag_entry].
    apply (forallb_update_with is_json_shape jsonable (m :: meta)).
    + now apply starting_map_shape.
    + apply forallb_const_true. apply jsonable_shape.
Qed.

Lemma after_failure_normalized exc self :
  normalized self -> normalized (after_failure exc self).
Proof.
  intros N. unfold after_failure, note_exception.
  destruct exc as [ei|]; [|exact N].
  destruct N as (No & Nf & Wo & Wf).
  assert (P : forallb (fun kv => is_json_shape (snd kv))
                (Dict.setdefault "error" (PDict []) (output self)) = true).
  { unfold Dict.setdefault.
    destruct (Dict.mem _ _); [exact No | now apply forallb_set]. }
  assert (W : Dict.wf (Dict.setdefault "error" (PDict []) (output self))).
  { unfold Dict.setdefault.
    destruct (Dict.mem _ _); [exact Wo | now apply wf_set]. }
  destruct (py_str (ei_exc ei)) as [message|];
    destruct self; unfold normalized;
    cbn [fst output flags with_output with_success] in *.
  - split; [|split; [exact Nf|split; [|exact Wf]]].
    + now apply forallb_set.
    + now apply wf_set.
  - now repeat split.
Qed.

Lemma run_op_normalized rt sink o self self' :
  normalized self -> run_op rt sink o self = Ok self' -> normalized self'.
Proof.
  intros N. destruct o.
  - intros [= <-]. destruct N as (No & Nf & Wo & Wf).
    destruct self; unfold normalized; cbn [output flags set_output with_output] in *.
    split; [|split; [exact Nf|split; [|exact Wf]]].
    + apply (forallb_update_with is_json_shape jsonable payload);
        [reflexivity | apply forallb_const_true; apply jsonable_shape].
    + apply wf_update_with. constructor.
  - intros [= <-]. destruct N as (No & Nf & Wo & Wf).
    destruct self; unfold normalized; cbn [output flags add_output with_output] in *.
    split; [|split; [exact Nf|split; [|exact Wf]]].
    + apply forallb_set; [exact No|]. intros k'. apply jsonable_shape.
    + now apply wf_set.
  - intros [= <-]. now destruct self.
  - now apply add_flag_normalized.
  - intros [= <-]. now destruct self.
  - intros E. rewrite (run_op_exit_inv _ _ _ _ _ _ _ E).
    now apply after_failure_normalized.
Qed.

(** X18.  Used through its methods, a logger holds normalized values only:
    starting from what [from_config] returns, after any sequence of
    operations every output value is a None, bool, int, float, str, list or
    dict, every flag is the sentinel True or a map of such values, and no key
    occurs twice in output or flags.  In particular [add_flag] never meets
    an entry it has to wrap as [{value: ...}]. *)
Theorem X18_methods_keep_values_normalized :
  forall (w : World) (rt : Runtime) (sink : Sink) (now : float)
         (config_path : string)
         (id : option Z) (sn tn sp pm : option string)
         (lg lg' : AutomationRunLogger) (os : list op) (k : string),
    from_config w now config_path id sn tn sp pm = Ok lg ->
    run_ops rt sink os lg = Ok lg' ->
    normalized lg'
    /\ is_other_entry (Dict.get_or_none k (flags lg')) = false.
Proof.
  intros w rt sink now cp id sn tn sp pm lg lg' os k B R.
  assert (N0 : normalized lg).
  { destruct (from_config_ok_inv _ _ _ _ _ _ _ _ _ B)
      as (cfg & env_id & mode & entry & resolved & cwd & host
          & _ & _ & _ & _ & _ & _ & _ & _ & ->).
    unfold normalized, built_logger, with_context, new_logger.
    cbn [output flags]. repeat split; constructor. }
  assert (N : normalized lg').
  { clear B. revert lg lg' N0 R.
    induction os as [|o os IH]; simpl; intros lg lg' N0 R.
    - now injection R as <-.
    - destruct (run_op rt sink o lg) as [s1|e] eqn:E; simpl in R; [|discriminate].
      apply (IH s1); [|exact R]. now apply (run_op_normalized rt sink o lg). }
  split; [exact N|].
  destruct N as (_ & Nf & _). now apply starting_map_shape.
Qed.

Lemma X18_witness :
  normalized Demo_after
  /\ is_other_entry (Dict.get_or_none "late" (flags Demo_after)) = false.
Proof.
  apply (X18_methods_keep_values_normalized
           Demo.world Demo.runtime Demo.sink_ok (Demo.seconds 100)
           "automation.config"
           None None None None None Demo_built Demo_after Demo_ops "late").
  - vm_compute. reflexivity.
  - vm_compute. reflexivity.
Defined.
